(** * 0-slot integration: swap acquisition and relay submission

    Shallow embedding of [src/utils/oslot.js].  The repository holds two
    revisions of that file:

    - the JSON-RPC revision, whose [executeSwapWithOSlot] posts a
      [sendTransaction] envelope to the relay with [fetch] and whose
      aggregator host marker is ['localhost:4000'];
    - the broadcast revision, whose [executeSwapWithOSlot] goes through
      [Connection.sendRawTransaction] and whose aggregator host marker is
      ['metaagg.velvetdao.xyz'].

    [fetchSwapTransaction] is otherwise the same text in both revisions. *)

From Stdlib Require Import String Ascii List ZArith Bool Lia.
From Stdlib Require Import DecimalString.
Import ListNotations.
Local Open Scope string_scope.
Local Open Scope Z_scope.
Set Warnings "-register-all".

(** ** JavaScript values *)

(** The values the program handles are those of JSON plus [undefined].
    [JNum] carries an integer in the range a double represents exactly and
    prints in plain decimal; fractions and [NaN] are outside the model.
    An object is the list of its own properties in insertion order; a
    property is read through the first entry of its name. *)
Inductive JsVal : Type :=
| JUndefined
| JNull
| JBool (b : bool)
| JNum (n : Z)
| JStr (s : string)
| JArr (items : list JsVal)
| JObj (props : list (string * JsVal)).

(** [if (v)], [v || w], [v && w]: [undefined], [null], [false], [0] and the
    empty string are falsy, everything else (every array and object too) is
    truthy. *)
Definition truthy (v : JsVal) : bool :=
  match v with
  | JUndefined | JNull => false
  | JBool b => b
  | JNum n => negb (n =? 0)
  | JStr s => negb (s =? EmptyString)%string
  | JArr _ | JObj _ => true
  end.

Definition js_or (v w : JsVal) : JsVal := if truthy v then v else w.

Fixpoint lookup (k : string) (props : list (string * JsVal)) : option JsVal :=
  match props with
  | [] => None
  | (k', v) :: rest => if (k' =? k)%string then Some v else lookup k rest
  end.

Fixpoint remove_key (k : string) (props : list (string * JsVal))
  : list (string * JsVal) :=
  match props with
  | [] => []
  | (k', v) :: rest =>
      if (k' =? k)%string then remove_key k rest
      else (k', v) :: remove_key k rest
  end.

(** [Number.MAX_SAFE_INTEGER], 2^53 - 1. *)
Definition MAX_SAFE_INTEGER : Z := 9007199254740991.

(** [Number.isSafeInteger] on an integer. *)
Definition isSafeInteger (n : Z) : bool :=
  (- MAX_SAFE_INTEGER <=? n) && (n <=? MAX_SAFE_INTEGER).

(** [Number.prototype.toString] on a safe integer: its decimal digits,
    after a minus sign when it is negative.  Outside that range the
    function does not follow JavaScript, which prints the shortest digits
    that round to the double and, from 1e21 on, an exponent: a statement
    about the digits of a number a caller chooses takes the number to be
    safe ([safe], below). *)
Definition number_toString (n : Z) : string :=
  NilZero.string_of_int (Z.to_int n).

(** Every number in [v] is a safe integer: the values in which [JNum] and
    [number_toString] stand for the numbers of JavaScript and their
    digits. *)
Fixpoint safe (v : JsVal) : bool :=
  match v with
  | JNum n => isSafeInteger n
  | JArr items => forallb safe items
  | JObj props => forallb (fun entry => safe (snd entry)) props
  | _ => true
  end.

Fixpoint join (sep : string) (parts : list string) : string :=
  match parts with
  | [] => EmptyString
  | [p] => p
  | p :: rest => p ++ sep ++ join sep rest
  end.

Fixpoint sequence {A : Type} (l : list (option A)) : option (list A) :=
  match l with
  | [] => Some []
  | Some a :: rest => option_map (cons a) (sequence rest)
  | None :: _ => None
  end.

(** [ToString(v)], as a template literal, [new Error(v)] and
    [URLSearchParams] apply it.  [None] is the [TypeError] JavaScript
    raises for an object whose own [toString] property shadows
    [Object.prototype.toString]: a value read from JSON is never callable.
    An array joins its items with commas, [null] and [undefined] items
    printing as nothing. *)
Fixpoint ToString (v : JsVal) : option string :=
  match v with
  | JUndefined => Some "undefined"
  | JNull => Some "null"
  | JBool true => Some "true"
  | JBool false => Some "false"
  | JNum n => Some (number_toString n)
  | JStr s => Some s
  | JArr items =>
      option_map (join ",")
        (sequence (map (fun item =>
                          match item with
                          | JUndefined | JNull => Some EmptyString
                          | _ => ToString item
                          end) items))
  | JObj props =>
      match lookup "toString" props with
      | Some _ => None
      | None => Some "[object Object]"
      end
  end.


(** [v.toString()]: reading the method off [undefined] or [null] is a
    [TypeError] too. *)
Definition toString_method (v : JsVal) : option string :=
  match v with
  | JUndefined | JNull => None
  | _ => ToString v
  end.

(** [v.k] for the property names this program reads ([inputMint],
    [outputMint], [amount], [slippageBps], [data], [swapData], [quote],
    [amountOut], [priceImpact], [transaction], [swapTransaction], [tx],
    [result], [error], [message], [code], [signature], [txid],
    [txSignature]).  None of them is a property of a string, number,
    boolean or array, nor of [Object.prototype], so only an object's own
    entries answer.  [None] is the [TypeError] of reading a property of
    [undefined] or [null]. *)
Definition js_get (v : JsVal) (k : string) : option JsVal :=
  match v with
  | JUndefined | JNull => None
  | JObj props =>
      Some (match lookup k props with Some w => w | None => JUndefined end)
  | _ => Some JUndefined
  end.

(** [v?.k] *)
Definition js_get_opt (v : JsVal) (k : string) : JsVal :=
  match js_get v k with Some w => w | None => JUndefined end.

(** ** Strings *)

(** [hay.includes(needle)] *)
Fixpoint includes (needle hay : string) : bool :=
  prefix needle hay
  || match hay with
     | EmptyString => false
     | String _ rest => includes needle rest
     end.

Definition hex_digit (n : nat) : ascii :=
  ascii_of_nat (if Nat.ltb n 10 then 48 + n else 55 + n).

(** The [application/x-www-form-urlencoded] byte serializer behind
    [URLSearchParams.prototype.toString]: letters, digits and [*-._] stay,
    a space becomes [+], every other byte becomes [%XX]. *)
Definition urlencode_byte (c : ascii) : string :=
  let n := nat_of_ascii c in
  if ((48 <=? n) && (n <=? 57) || (65 <=? n) && (n <=? 90)
      || (97 <=? n) && (n <=? 122)
      || (n =? 42) || (n =? 45) || (n =? 46) || (n =? 95))%nat
  then String c EmptyString
  else if (n =? 32)%nat then "+"
  else String "%" (String (hex_digit (n / 16))
                     (String (hex_digit (n mod 16)) EmptyString)).

Fixpoint urlencode (s : string) : string :=
  match s with
  | EmptyString => EmptyString
  | String c rest => urlencode_byte c ++ urlencode rest
  end.

(** [new URLSearchParams(record).toString()], the record's values already
    converted to strings. *)
Definition URLSearchParams_toString (entries : list (string * string))
  : string :=
  join "&" (map (fun kv => urlencode (fst kv) ++ "=" ++ urlencode (snd kv))
                entries).

(** [Buffer.from(bytes).toString('base64')]: RFC 4648 base64 with padding,
    six bits at a time from the most significant end. *)
Definition base64_alphabet : string :=
  "ABCDEFGHIJKLMNOPQRSTUVWXYZabcdefghijklmnopqrstuvwxyz0123456789+/".

Definition bits_of_N (width : nat) (n : N) : list bool :=
  map (fun i => N.testbit n (N.of_nat i)) (rev (seq 0 width)).

Definition N_of_bits (bits : list bool) : N :=
  fold_left
    (fun (acc : N) (b : bool) => N.add (N.double acc) (if b then 1%N else 0%N))
    bits 0%N.

Definition base64_char (bits : list bool) : string :=
  match get (N.to_nat (N_of_bits bits)) base64_alphabet with
  | Some c => String c EmptyString
  | None => EmptyString
  end.

Fixpoint base64_groups (bits : list bool) : string :=
  match bits with
  | [] => EmptyString
  | a :: b :: c :: d :: e :: f :: rest =>
      base64_char [a; b; c; d; e; f] ++ base64_groups rest
  | [a; b; c; d] => base64_char [a; b; c; d; false; false] ++ "="
  | [a; b] => base64_char [a; b; false; false; false; false] ++ "=="
  | _ => EmptyString
  end.

Definition base64_encode (bytes : list Byte.byte) : string :=
  base64_groups (flat_map (fun b => bits_of_N 8 (Byte.to_N b)) bytes).

(** ** Exceptions, requests, responses *)

(** What a [throw] or a rejected promise carries: [new Error(message)] of
    the program itself, the engine's [TypeError] and [SyntaxError], and
    whatever a collaborator (network, wallet, web3.js) rejects with. *)
Inductive Exn : Type :=
| Error (message : string)
| TypeError
| SyntaxError
| Rejection (reason : JsVal).

Inductive Result (A : Type) : Type :=
| Ok (a : A)
| Throw (e : Exn).
Arguments Ok {A} a.
Arguments Throw {A} e.

Inductive HttpMethod : Type := GET | POST.

Record Request : Type := mkRequest {
  method : HttpMethod;
  url : string;
  headers : list (string * string);
  body : option string
}.

Record Response : Type := mkResponse {
  status : Z;
  statusText : string;
  text : string
}.

(** [response.ok] *)
Definition ok (r : Response) : bool := (200 <=? status r) && (status r <=? 299).

(** The options record of [sendRawTransaction]. *)
Record SendOptions : Type := mkSendOptions {
  skipPreflight : bool;
  maxRetries : Z
}.

(** ** The platform

    What the program calls and does not define: the clock, the two [JSON]
    functions, the network, the base64 decoder of [Buffer], and web3.js.
    - [performance_now n] is the [n]-th reading of [performance.now()];
    - [toFixed5 t0 t1] is [((t1 - t0) / 1000).toFixed(5)];
    - [JSON_parse] answers [None] where [JSON.parse] raises [SyntaxError];
    - [JSON_stringify] answers [None] where [JSON.stringify] returns
      [undefined];
    - [fetch] answers [Throw] where the promise rejects. *)
Class Platform : Type := {
  Time : Type;
  performance_now : nat -> Time;
  toFixed5 : Time -> Time -> string;
  JSON_parse : string -> option JsVal;
  JSON_stringify : JsVal -> option string;
  fetch : Request -> Result Response;
  VersionedTransaction : Type;
  Buffer_from_base64 : JsVal -> Result (list Byte.byte);
  deserialize : list Byte.byte -> Result VersionedTransaction;
  serialize : VersionedTransaction -> Result (list Byte.byte);
  Connection : Type;
  new_Connection : string -> string -> Result Connection;
  sendRawTransaction :
    Connection -> list Byte.byte -> SendOptions -> Result JsVal
}.

(** The two revisions of [oslot.js]. *)
Inductive Revision : Type := JsonRpc | Broadcast.

Inductive Level : Type := LOG | ERROR.

(** One argument of a [console] call. *)
Inductive Arg : Type :=
| AStr (s : string)
| AVal (v : JsVal)
| AExn (e : Exn).

(** ** Effects *)

Section Program.
Context {P : Platform}.

(** What a call leaves behind: how often the clock was read, the console
    lines, the HTTP requests issued and the raw transactions broadcast,
    each in order. *)
Record State : Type := mkState {
  clock : nat;
  console : list (Level * list Arg);
  requests : list Request;
  broadcasts : list (Connection * list Byte.byte * SendOptions)
}.

(** A computation runs from a state to a state and either returns or
    throws. *)
Definition M (A : Type) : Type := State -> State * Result A.

Definition ret {A : Type} (a : A) : M A := fun s => (s, Ok a).

Definition throw {A : Type} (e : Exn) : M A := fun s => (s, Throw e).

Definition bind {A B : Type} (m : M A) (k : A -> M B) : M B :=
  fun s =>
    match m s with
    | (s', Ok a) => k a s'
    | (s', Throw e) => (s', Throw e)
    end.

(** [try { m } catch (e) { h e }] *)
Definition try_catch {A : Type} (m : M A) (h : Exn -> M A) : M A :=
  fun s =>
    match m s with
    | (s', Ok a) => (s', Ok a)
    | (s', Throw e) => h e s'
    end.

Definition lift {A : Type} (r : Result A) : M A := fun s => (s, r).

Definition orTypeError {A : Type} (o : option A) : M A :=
  match o with
  | Some a => ret a
  | None => throw TypeError
  end.

(** [performance.now()] *)
Definition now : M Time :=
  fun s =>
    (mkState (S (clock s)) (console s) (requests s) (broadcasts s),
     Ok (performance_now (clock s))).

Definition console_write (l : Level) (args : list Arg) : M unit :=
  fun s =>
    (mkState (clock s) (console s ++ [(l, args)]) (requests s) (broadcasts s),
     Ok tt).

Definition console_log : list Arg -> M unit := console_write LOG.
Definition console_error : list Arg -> M unit := console_write ERROR.

(** [await fetch(url, init)] *)
Definition http (req : Request) : M Response :=
  fun s =>
    (mkState (clock s) (console s) (requests s ++ [req]) (broadcasts s),
     fetch req).

(** [await connection.sendRawTransaction(bytes, options)] *)
Definition broadcast (c : Connection) (bytes : list Byte.byte)
  (options : SendOptions) : M JsVal :=
  fun s =>
    (mkState (clock s) (console s) (requests s)
       (broadcasts s ++ [(c, bytes, options)]),
     sendRawTransaction c bytes options).

(** [await response.json()] *)
Definition response_json (r : Response) : M JsVal :=
  match JSON_parse (text r) with
  | Some v => ret v
  | None => throw SyntaxError
  end.

(** [throw new Error(v)]: the message is [ToString(v)]. *)
Definition throw_new_Error {A : Type} (v : JsVal) : M A :=
  match ToString v with
  | Some message => throw (Error message)
  | None => throw TypeError
  end.

End Program.

Declare Scope js_scope.
Delimit Scope js_scope with js.
Notation "x <- m ;; k" := (bind m (fun x => k))
  (at level 61, m at next level, right associativity) : js_scope.
Notation "m ;; k" := (bind m (fun _ => k))
  (at level 61, right associativity) : js_scope.
Local Open Scope js_scope.

(** ** [fetchSwapTransaction] *)

Section Fetch.
Context {P : Platform}.

(** The host marker of the aggregator test, the one text the two revisions
    of [fetchSwapTransaction] differ in. *)
Definition aggregatorHost (rev : Revision) : string :=
  match rev with
  | JsonRpc => "localhost:4000"
  | Broadcast => "metaagg.velvetdao.xyz"
  end.

Definition json_headers : list (string * string) :=
  [("Content-Type", "application/json")].

(** The first test of the [if] chain. *)
Definition is_aggregator (rev : Revision) (swapEndpoint : string) : bool :=
  includes "route/solana/swap" swapEndpoint
  || includes (aggregatorHost rev) swapEndpoint.

(** The second test of the [if] chain. *)
Definition is_quote (swapEndpoint : string) : bool :=
  includes "quote-api.jup.ag" swapEndpoint || includes "/quote" swapEndpoint.

(** The [if (responseData.data && responseData.data.swapData)] statement of
    the aggregator branch. *)
Definition aggregator_result (responseData : JsVal) : M JsVal :=
  data <- orTypeError (js_get responseData "data") ;;
  probe <- (if truthy data then orTypeError (js_get data "swapData")
            else ret data) ;;
  if truthy probe then
    quote <- orTypeError (js_get data "quote") ;;
    console_log
      [AStr "Swap quote info:";
       AVal (JObj [("amountOut", js_get_opt quote "amountOut");
                   ("priceImpact", js_get_opt quote "priceImpact")])] ;;
    orTypeError (js_get data "swapData")
  else
    throw (Error
      "Invalid response format from swap endpoint. Expected data.swapData").

(** The URL of the aggregator request.  Every step that can fail (reading
    a property of a missing [swapParams], [toString] of a missing amount,
    converting a value that cannot be printed) raises [TypeError], and
    nothing is logged or sent before the URL is complete; [None] is that
    [TypeError]. *)
Definition aggregator_url (swapEndpoint : string) (swapParams : JsVal)
  (userPublicKey : string) : option string :=
  match js_get swapParams "inputMint", js_get swapParams "outputMint",
        js_get swapParams "amount", js_get swapParams "slippageBps" with
  | Some inputMint, Some outputMint, Some amount, Some slippageBps =>
      match toString_method amount,
            toString_method (js_or slippageBps (JNum 50)),
            ToString inputMint, ToString outputMint with
      | Some amount_s, Some slippage, Some tokenIn, Some tokenOut =>
          let queryParams :=
            URLSearchParams_toString
              [("tokenIn", tokenIn); ("tokenOut", tokenOut);
               ("amount", amount_s); ("sender", userPublicKey);
               ("slippage", slippage)] in
          Some (swapEndpoint ++ "?" ++ queryParams)
      | _, _, _, _ => None
      end
  | _, _, _, _ => None
  end.

(** The branch taken on an aggregator marker: one GET with the swap as
    query parameters. *)
Definition aggregator_branch (swapEndpoint : string) (swapParams : JsVal)
  (userPublicKey : string) : M JsVal :=
  url <- orTypeError (aggregator_url swapEndpoint swapParams userPublicKey) ;;
  console_log [AStr "Fetching swap from:"; AStr url] ;;
  response <- http (mkRequest GET url json_headers None) ;;
  if negb (ok response) then
    let errorText := text response in
    throw (Error ("Failed to fetch swap transaction: "
                  ++ statusText response ++ " - " ++ errorText))
  else
    responseData <- response_json response ;;
    aggregator_result responseData.

(** The [if (swapData.swapTransaction)] statement of the quote branch. *)
Definition quote_result (swapData : JsVal) : M JsVal :=
  swapTransaction <- orTypeError (js_get swapData "swapTransaction") ;;
  if truthy swapTransaction then ret swapTransaction
  else throw (Error "Invalid response format from Jupiter swap API").

(** The URL of the quote request; [None] is a [TypeError], as in
    [aggregator_url]. *)
Definition quote_url (swapEndpoint : string) (swapParams : JsVal)
  : option string :=
  match js_get swapParams "inputMint", js_get swapParams "outputMint",
        js_get swapParams "amount", js_get swapParams "slippageBps" with
  | Some inputMint, Some outputMint, Some amount, Some slippageBps0 =>
      let slippageBps := js_or slippageBps0 (JNum 50) in
      match toString_method amount, toString_method slippageBps,
            ToString inputMint, ToString outputMint with
      | Some amount_s, Some slippage_s, Some inputMint_s, Some outputMint_s =>
          Some (swapEndpoint ++ "?" ++
                URLSearchParams_toString
                  [("inputMint", inputMint_s); ("outputMint", outputMint_s);
                   ("amount", amount_s); ("slippageBps", slippage_s)])
      | _, _, _, _ => None
      end
  | _, _, _, _ => None
  end.

(** The swap-construction request of the quote branch. *)
Definition swap_request (quoteData : JsVal) (userPublicKey : string)
  : Request :=
  mkRequest POST "https://quote-api.jup.ag/v6/swap" json_headers
    (JSON_stringify
       (JObj [("quoteResponse", quoteData);
              ("userPublicKey", JStr userPublicKey);
              ("wrapAndUnwrapSol", JBool true);
              ("dynamicComputeUnitLimit", JBool true);
              ("prioritizationFeeLamports", JStr "auto")])).

(** The branch taken on a quote marker: a GET for the quote, then a POST
    of the quote to the fixed swap-construction URL. *)
Definition quote_branch (swapEndpoint : string) (swapParams : JsVal)
  (userPublicKey : string) : M JsVal :=
  quoteUrl <- orTypeError (quote_url swapEndpoint swapParams) ;;
  quoteResponse <- http (mkRequest GET quoteUrl [] None) ;;
  if negb (ok quoteResponse) then
    throw (Error ("Failed to get quote: " ++ statusText quoteResponse))
  else
    quoteData <- response_json quoteResponse ;;
    swapResponse <- http (swap_request quoteData userPublicKey) ;;
    if negb (ok swapResponse) then
      let errorText := text swapResponse in
      throw (Error ("Failed to get swap transaction: " ++ errorText))
    else
      swapData <- response_json swapResponse ;;
      quote_result swapData.

(** The [if (data.transaction) ... else if ...] statement of the legacy
    branch. *)
Definition legacy_result (data : JsVal) : M JsVal :=
  transaction <- orTypeError (js_get data "transaction") ;;
  if truthy transaction then ret transaction
  else
    swapTransaction <- orTypeError (js_get data "swapTransaction") ;;
    if truthy swapTransaction then ret swapTransaction
    else
      tx <- orTypeError (js_get data "tx") ;;
      if truthy tx then ret tx
      else throw (Error "Invalid response format from swap endpoint").

(** The one request of the legacy branch. *)
Definition legacy_request (swapEndpoint : string) (swapParams : JsVal)
  : Request :=
  mkRequest POST swapEndpoint json_headers (JSON_stringify swapParams).

(** The branch taken when no marker matches: one POST of the swap
    parameters as they are. *)
Definition legacy_branch (swapEndpoint : string) (swapParams : JsVal)
  : M JsVal :=
  response <- http (legacy_request swapEndpoint swapParams) ;;
  if negb (ok response) then
    throw (Error ("Failed to fetch swap transaction: "
                  ++ statusText response))
  else
    data <- response_json response ;;
    legacy_result data.

Definition fetchSwapTransaction (rev : Revision) (swapEndpoint : string)
  (swapParams : JsVal) (userPublicKey : string) : M JsVal :=
  try_catch
    (if is_aggregator rev swapEndpoint then
       aggregator_branch swapEndpoint swapParams userPublicKey
     else if is_quote swapEndpoint then
       quote_branch swapEndpoint swapParams userPublicKey
     else
       legacy_branch swapEndpoint swapParams)
    (fun error =>
       console_error [AStr "Error fetching swap transaction:"; AExn error] ;;
       throw error).

End Fetch.

(** ** [executeSwapWithOSlot], JSON-RPC revision *)

Section JsonRpcSubmit.
Context {P : Platform}.

(** The [sendTransaction] envelope. *)
Definition payload (serializedTx : string) : JsVal :=
  JObj [("jsonrpc", JStr "2.0");
        ("id", JNum 1);
        ("method", JStr "sendTransaction");
        ("params",
         JArr [JStr serializedTx;
               JObj [("encoding", JStr "base64");
                     ("skipPreflight", JBool true);
                     ("preflightCommitment", JStr "processed");
                     ("maxRetries", JNum 0);
                     ("minContextSlot", JNull)]])].

(** The value of [errorMessage] when the [throw] of the non-200 block is
    reached: the inner [try] reads the body as JSON, its [catch] falls back
    on the raw text. *)
Definition relay_error_message (status_code : Z) (errorText : string)
  : JsVal :=
  let errorMessage :=
    "0slot execution failed: incorrect status code: "
    ++ number_toString status_code in
  let caught :=
    if negb (errorText =? EmptyString)%string
    then JStr (errorMessage ++ ", " ++ errorText)
    else JStr errorMessage in
  match JSON_parse errorText with
  | None => caught
  | Some errorData =>
      match js_get errorData "error" with
      | None => caught
      | Some error =>
          if truthy error then
            js_or (js_get_opt error "message")
              (js_or (js_get_opt error "code") (JStr errorMessage))
          else if truthy (js_get_opt errorData "message") then
            js_get_opt errorData "message"
          else JStr errorMessage
      end
  end.

(** The [if (response.status !== 200)] block. *)
Definition relay_failure (response : Response) (responseStartTime
  totalStartTime : Time) : M JsVal :=
  let errorText := text response in
  t1 <- now ;;
  let responseTime := toFixed5 responseStartTime t1 in
  t2 <- now ;;
  let totalTime := toFixed5 totalStartTime t2 in
  console_error
    [AStr ("❌ 0slot request failed after " ++ responseTime ++ " seconds")] ;;
  console_error
    [AStr ("❌ Total execution time: " ++ totalTime ++ " seconds")] ;;
  throw_new_Error (relay_error_message (status response) errorText).

(** The [if (responseData.result) ... else if (responseData.error) ...
    else ...] statement on the body of a 200 response. *)
Definition relay_result (responseData : JsVal) (responseTime totalTime
  : string) : M JsVal :=
  result <- orTypeError (js_get responseData "result") ;;
  if truthy result then
    let signature := result in
    console_log
      [AStr ("✅ Response received in " ++ responseTime ++ " seconds")] ;;
    console_log
      [AStr ("⏱️  Total execution time: " ++ totalTime ++ " seconds")] ;;
    signature_s <- orTypeError (ToString signature) ;;
    console_log [AStr ("🚀 Transaction signature: " ++ signature_s)] ;;
    console_log
      [AStr ("✨ It took " ++ totalTime ++ " seconds to send transaction "
             ++ signature_s ++ " (ZeroSlot)")] ;;
    console_log
      [AStr ("💡 Note: This is easy to optimize, you just have to be "
             ++ "closer to 0slot server")] ;;
    ret signature
  else
    error <- orTypeError (js_get responseData "error") ;;
    if truthy error then
      console_error
        [AStr ("❌ 0slot error response received after " ++ responseTime
               ++ " seconds")] ;;
      console_error
        [AStr ("❌ Total execution time: " ++ totalTime ++ " seconds")] ;;
      detail <-
        orTypeError
          (ToString
             (js_or (js_get_opt error "message")
                (match JSON_stringify error with
                 | Some s => JStr s
                 | None => JUndefined
                 end))) ;;
      throw (Error ("0slot error: " ++ detail))
    else
      signature <- orTypeError (js_get responseData "signature") ;;
      if truthy signature then
        console_log
          [AStr ("✅ Response received in " ++ responseTime ++ " seconds")] ;;
        console_log
          [AStr ("⏱️  Total execution time: " ++ totalTime ++ " seconds")] ;;
        ret signature
      else
        txid <- orTypeError (js_get responseData "txid") ;;
        if truthy txid then
          console_log
            [AStr ("✅ Response received in " ++ responseTime ++ " seconds")] ;;
          console_log
            [AStr ("⏱️  Total execution time: " ++ totalTime ++ " seconds")] ;;
          ret txid
        else
          txSignature <- orTypeError (js_get responseData "txSignature") ;;
          if truthy txSignature then
            console_log
              [AStr ("✅ Response received in " ++ responseTime
                     ++ " seconds")] ;;
            console_log
              [AStr ("⏱️  Total execution time: " ++ totalTime
                     ++ " seconds")] ;;
            ret txSignature
          else
            console_error
              [AStr ("❌ Unexpected response format after " ++ responseTime
                     ++ " seconds")] ;;
            throw (Error "Unexpected response format from 0slot endpoint").

(** The body of the [try]. *)
Definition jsonrpc_try (transactionBase64 : JsVal)
  (signTransaction : VersionedTransaction -> Result VersionedTransaction)
  (endpoint : string) (totalStartTime : Time) : M JsVal :=
  console_log [AStr "🔄 Starting 0slot transaction execution..."] ;;
  prepareStartTime <- now ;;
  transactionBuffer <- lift (Buffer_from_base64 transactionBase64) ;;
  versionedTransaction <- lift (deserialize transactionBuffer) ;;
  signedTransaction <- lift (signTransaction versionedTransaction) ;;
  signedBytes <- lift (serialize signedTransaction) ;;
  let serializedTx := base64_encode signedBytes in
  t <- now ;;
  let prepareTime := toFixed5 prepareStartTime t in
  console_log
    [AStr ("⏱️  Transaction preparation took: " ++ prepareTime
           ++ " seconds")] ;;
  requestStartTime <- now ;;
  console_log
    [AStr ("📤 Sending transaction to 0slot endpoint: " ++ endpoint)] ;;
  payload_s <- orTypeError (JSON_stringify (payload serializedTx)) ;;
  console_log
    [AStr ("📦 Payload size: "
           ++ number_toString (Z.of_nat (String.length payload_s))
           ++ " bytes")] ;;
  response <-
    http (mkRequest POST endpoint json_headers
            (JSON_stringify (payload serializedTx))) ;;
  t <- now ;;
  let requestTime := toFixed5 requestStartTime t in
  console_log
    [AStr ("⏱️  Request sent, waiting for response... (" ++ requestTime
           ++ " seconds)")] ;;
  responseStartTime <- now ;;
  if negb (status response =? 200) then
    relay_failure response responseStartTime totalStartTime
  else
    responseData <- response_json response ;;
    t1 <- now ;;
    let responseTime := toFixed5 responseStartTime t1 in
    t2 <- now ;;
    let totalTime := toFixed5 totalStartTime t2 in
    relay_result responseData responseTime totalTime.

(** The [catch] of both revisions. *)
Definition rethrow_timed (totalStartTime : Time) (error : Exn) : M JsVal :=
  t <- now ;;
  let totalTime := toFixed5 totalStartTime t in
  console_error
    [AStr ("❌ 0slot execution error after " ++ totalTime ++ " seconds:");
     AExn error] ;;
  throw error.

Definition executeSwapWithOSlot_jsonrpc (transactionBase64 : JsVal)
  (connection : Connection)
  (signTransaction : VersionedTransaction -> Result VersionedTransaction)
  (endpoint : string) : M JsVal :=
  totalStartTime <- now ;;
  try_catch
    (jsonrpc_try transactionBase64 signTransaction endpoint totalStartTime)
    (rethrow_timed totalStartTime).

End JsonRpcSubmit.

(** ** [executeSwapWithOSlot], broadcast revision *)

Section BroadcastSubmit.
Context {P : Platform}.

(** The body of the [try]. *)
Definition broadcast_try (transactionBase64 : JsVal)
  (signTransaction : VersionedTransaction -> Result VersionedTransaction)
  (endpoint : string) (totalStartTime : Time) : M JsVal :=
  console_log [AStr "🔄 Starting 0slot transaction execution..."] ;;
  prepareStartTime <- now ;;
  transactionBuffer <- lift (Buffer_from_base64 transactionBase64) ;;
  versionedTransaction <- lift (deserialize transactionBuffer) ;;
  signedTransaction <- lift (signTransaction versionedTransaction) ;;
  serializedTx <- lift (serialize signedTransaction) ;;
  t <- now ;;
  let prepareTime := toFixed5 prepareStartTime t in
  console_log
    [AStr ("⏱️  Transaction preparation took: " ++ prepareTime
           ++ " seconds")] ;;
  oslotConnection <- lift (new_Connection endpoint "confirmed") ;;
  requestStartTime <- now ;;
  console_log
    [AStr ("📤 Sending transaction to 0slot endpoint: " ++ endpoint)] ;;
  console_log
    [AStr ("📦 Transaction size: "
           ++ number_toString (Z.of_nat (List.length serializedTx))
           ++ " bytes")] ;;
  signature <- broadcast oslotConnection serializedTx (mkSendOptions true 0) ;;
  t1 <- now ;;
  let requestTime := toFixed5 requestStartTime t1 in
  t2 <- now ;;
  let totalTime := toFixed5 totalStartTime t2 in
  console_log [AStr ("✅ Transaction sent in " ++ requestTime ++ " seconds")] ;;
  console_log
    [AStr ("⏱️  Total execution time: " ++ totalTime ++ " seconds")] ;;
  signature_s <- orTypeError (ToString signature) ;;
  console_log [AStr ("🚀 Transaction signature: " ++ signature_s)] ;;
  console_log
    [AStr ("✨ It took " ++ totalTime ++ " seconds to send transaction "
           ++ signature_s ++ " (ZeroSlot)")] ;;
  console_log
    [AStr ("💡 Note: This is easy to optimize, you just have to be "
           ++ "closer to 0slot server")] ;;
  ret signature.

Definition executeSwapWithOSlot_broadcast (transactionBase64 : JsVal)
  (connection : Connection)
  (signTransaction : VersionedTransaction -> Result VersionedTransaction)
  (endpoint : string) : M JsVal :=
  totalStartTime <- now ;;
  try_catch
    (broadcast_try transactionBase64 signTransaction endpoint totalStartTime)
    (rethrow_timed totalStartTime).

(** [executeSwapWithOSlot] of either revision. *)
Definition executeSwapWithOSlot (rev : Revision) (transactionBase64 : JsVal)
  (connection : Connection)
  (signTransaction : VersionedTransaction -> Result VersionedTransaction)
  (endpoint : string) : M JsVal :=
  match rev with
  | JsonRpc =>
      executeSwapWithOSlot_jsonrpc transactionBase64 connection
        signTransaction endpoint
  | Broadcast =>
      executeSwapWithOSlot_broadcast transactionBase64 connection
        signTransaction endpoint
  end.

End BroadcastSubmit.

(** ** A concrete platform

    A platform to run the program on: a millisecond counter for a clock,
    JSON texts read from a table, a serializer for values whose strings
    need no escape, a strict base64 decoder, transactions that are their
    own wire bytes, and a network and a broadcast call that answer as
    told. *)

Definition dquote : string := String (ascii_of_nat 34) EmptyString.

Definition quoted (s : string) : string := dquote ++ s ++ dquote.

Fixpoint stringify_value (v : JsVal) : string :=
  match v with
  | JUndefined | JNull => "null"
  | JBool true => "true"
  | JBool false => "false"
  | JNum n => number_toString n
  | JStr s => quoted s
  | JArr items => "[" ++ join "," (map stringify_value items) ++ "]"
  | JObj props =>
      "{" ++ join ","
               ((fix members (ps : list (string * JsVal)) : list string :=
                   match ps with
                   | [] => []
                   | (_, JUndefined) :: rest => members rest
                   | (k, w) :: rest =>
                       (quoted k ++ ":" ++ stringify_value w) :: members rest
                   end) props)
          ++ "}"
  end.

Definition stringify (v : JsVal) : option string :=
  match v with
  | JUndefined => None
  | _ => Some (stringify_value v)
  end.

Fixpoint sextets (s : string) : list bool :=
  match s with
  | EmptyString => []
  | String c rest =>
      match index 0 (String c EmptyString) base64_alphabet with
      | Some n => bits_of_N 6 (N.of_nat n) ++ sextets rest
      | None => sextets rest
      end
  end.

Fixpoint octets (bits : list bool) : list Byte.byte :=
  match bits with
  | a :: b :: c :: d :: e :: f :: g :: h :: rest =>
      match Byte.of_N (N_of_bits [a; b; c; d; e; f; g; h]) with
      | Some x => x :: octets rest
      | None => octets rest
      end
  | _ => []
  end.

Definition base64_decode (s : string) : list Byte.byte := octets (sextets s).

Definition pad3 (n : nat) : string :=
  let digits := number_toString (Z.of_nat n) in
  match String.length digits with
  | 1%nat => "00" ++ digits
  | 2%nat => "0" ++ digits
  | _ => digits
  end.

(** [((t1 - t0) / 1000).toFixed(5)] on whole milliseconds. *)
Definition millis_toFixed5 (t0 t1 : nat) : string :=
  number_toString (Z.of_nat ((t1 - t0) / 1000)) ++ "."
  ++ pad3 ((t1 - t0) mod 1000) ++ "00".

Definition tablePlatform (parse : list (string * JsVal))
  (net : Request -> Result Response) (rpc : Result JsVal) : Platform :=
  {| Time := nat;
     performance_now := fun n => n;
     toFixed5 := millis_toFixed5;
     JSON_parse := fun s => lookup s parse;
     JSON_stringify := stringify;
     fetch := net;
     VersionedTransaction := list Byte.byte;
     Buffer_from_base64 :=
       fun v => match v with
                | JStr s => Ok (base64_decode s)
                | _ => Throw TypeError
                end;
     deserialize := fun bytes => Ok bytes;
     serialize := fun tx => Ok tx;
     Connection := string;
     new_Connection := fun endpoint _ => Ok endpoint;
     sendRawTransaction := fun _ _ _ => rpc |}.

(** A signer that appends one fixed byte. *)
Definition stub_signer (tx : list Byte.byte) : Result (list Byte.byte) :=
  Ok (tx ++ [Byte.xff])%list.

(** A network that answers every request with [r]. *)
Definition always (r : Response) : Request -> Result Response :=
  fun _ => Ok r.

(** ** Readings of the specification *)

(** The first of [keys] that [props] carries, whatever it holds. *)
Fixpoint first_present (keys : list string) (props : list (string * JsVal))
  : option JsVal :=
  match keys with
  | [] => None
  | k :: rest =>
      match lookup k props with
      | Some v => Some v
      | None => first_present rest props
      end
  end.

(** A field that is absent or holds a non-empty string. *)
Definition absent_or_text (k : string) (props : list (string * JsVal))
  : Prop :=
  match lookup k props with
  | None => True
  | Some (JStr s) => s <> EmptyString
  | Some _ => False
  end.

(** A well-formed answer of a legacy provider: each of the three
    synonymous fields it carries holds a non-empty string, the encoded
    transaction. *)
Definition well_formed_legacy (props : list (string * JsVal)) : Prop :=
  absent_or_text "transaction" props
  /\ absent_or_text "swapTransaction" props
  /\ absent_or_text "tx" props.

(** [undefined] and [null] *)
Definition nullish (v : JsVal) : bool :=
  match v with
  | JUndefined | JNull => true
  | _ => false
  end.

(** The requests a computation adds to those of the state it starts in. *)
Definition issued {P : Platform} {A : Type} (m : M A) (s : State)
  : list Request :=
  skipn (List.length (requests s)) (requests (fst (m s))).

(** A state with nothing in it. *)
Definition idle {P : Platform} : State := mkState 0 [] [] [].


(** The submission gets as far as the relay, and the relay answers [r]:
    the transaction decodes, the wallet signs it, the envelope serializes
    and the POST is answered. *)
Definition relay_answers {P : Platform} (transactionBase64 : JsVal)
  (signTransaction : VersionedTransaction -> Result VersionedTransaction)
  (endpoint : string) (r : Response) : Prop :=
  exists buffer tx signed bytes body_text,
    Buffer_from_base64 transactionBase64 = Ok buffer
    /\ deserialize buffer = Ok tx
    /\ signTransaction tx = Ok signed
    /\ serialize signed = Ok bytes
    /\ JSON_stringify (payload (base64_encode bytes)) = Some body_text
    /\ fetch (mkRequest POST endpoint json_headers (Some body_text)) = Ok r.

(** The preparation of a submission ends in the signed wire bytes: the
    transaction decodes and deserializes, the wallet signs it and the
    signed transaction serializes. *)
Definition prepared {P : Platform} (transactionBase64 : JsVal)
  (signTransaction : VersionedTransaction -> Result VersionedTransaction)
  (bytes : list Byte.byte) : Prop :=
  exists buffer tx signed,
    Buffer_from_base64 transactionBase64 = Ok buffer
    /\ deserialize buffer = Ok tx
    /\ signTransaction tx = Ok signed
    /\ serialize signed = Ok bytes.

(** The preparation of a submission stops with [e]: the first of decoding,
    deserializing, signing and serializing that throws, throws [e]. *)
Definition preparation_fails {P : Platform} (transactionBase64 : JsVal)
  (signTransaction : VersionedTransaction -> Result VersionedTransaction)
  (e : Exn) : Prop :=
  Buffer_from_base64 transactionBase64 = Throw e
  \/ (exists buffer,
         Buffer_from_base64 transactionBase64 = Ok buffer
         /\ (deserialize buffer = Throw e
             \/ exists tx,
                 deserialize buffer = Ok tx
                 /\ (signTransaction tx = Throw e
                     \/ exists signed,
                         signTransaction tx = Ok signed
                         /\ serialize signed = Throw e))).

(** [new Error(v)] evaluated: the error made, or the [TypeError] of
    converting [v] to its message. *)
Definition new_Error (v : JsVal) : Exn :=
  match ToString v with
  | Some message => Error message
  | None => TypeError
  end.

(** An exception [e] is raised in the [try] of [executeSwapWithOSlot]
    outside the inner [try] of its non-200 block.  There is one
    constructor for each place of the source where that happens, in
    program order: the four steps of the preparation; in the JSON-RPC
    revision the length of the serialized payload, the [fetch], the
    [throw] that ends the non-200 block, [response.json()], the reading of
    [result] off a [null] body, the printing of the identifier for the
    log, and the two [throw]s of the normalization; in the broadcast
    revision [new Connection], [sendRawTransaction] and the printing of
    the identifier.  A response carries its body text, so
    [response.text()] is no such place. *)
Inductive raises {P : Platform} (transactionBase64 : JsVal)
  (signTransaction : VersionedTransaction -> Result VersionedTransaction)
  (endpoint : string) : Revision -> Exn -> Prop :=
| raises_preparing rev e :
    preparation_fails transactionBase64 signTransaction e ->
    raises transactionBase64 signTransaction endpoint rev e
| raises_measuring bytes :
    prepared transactionBase64 signTransaction bytes ->
    JSON_stringify (payload (base64_encode bytes)) = None ->
    raises transactionBase64 signTransaction endpoint JsonRpc TypeError
| raises_fetching bytes body_text e :
    prepared transactionBase64 signTransaction bytes ->
    JSON_stringify (payload (base64_encode bytes)) = Some body_text ->
    fetch (mkRequest POST endpoint json_headers (Some body_text)) = Throw e ->
    raises transactionBase64 signTransaction endpoint JsonRpc e
| raises_rejecting r :
    relay_answers transactionBase64 signTransaction endpoint r ->
    status r <> 200 ->
    raises transactionBase64 signTransaction endpoint JsonRpc
      (new_Error (relay_error_message (status r) (text r)))
| raises_reading r :
    relay_answers transactionBase64 signTransaction endpoint r ->
    status r = 200 ->
    JSON_parse (text r) = None ->
    raises transactionBase64 signTransaction endpoint JsonRpc SyntaxError
| raises_probing r d :
    relay_answers transactionBase64 signTransaction endpoint r ->
    status r = 200 ->
    JSON_parse (text r) = Some d ->
    nullish d = true ->
    raises transactionBase64 signTransaction endpoint JsonRpc TypeError
| raises_printing r d :
    relay_answers transactionBase64 signTransaction endpoint r ->
    status r = 200 ->
    JSON_parse (text r) = Some d ->
    truthy (js_get_opt d "result") = true ->
    ToString (js_get_opt d "result") = None ->
    raises transactionBase64 signTransaction endpoint JsonRpc TypeError
| raises_refusing r d :
    relay_answers transactionBase64 signTransaction endpoint r ->
    status r = 200 ->
    JSON_parse (text r) = Some d ->
    truthy (js_get_opt d "result") = false ->
    truthy (js_get_opt d "error") = true ->
    raises transactionBase64 signTransaction endpoint JsonRpc
      (match ToString
               (js_or (js_get_opt (js_get_opt d "error") "message")
                  (match JSON_stringify (js_get_opt d "error") with
                   | Some t => JStr t
                   | None => JUndefined
                   end)) with
       | Some detail => Error ("0slot error: " ++ detail)
       | None => TypeError
       end)
| raises_unexpected r d :
    relay_answers transactionBase64 signTransaction endpoint r ->
    status r = 200 ->
    JSON_parse (text r) = Some d ->
    nullish d = false ->
    truthy (js_get_opt d "result") = false ->
    truthy (js_get_opt d "error") = false ->
    truthy (js_get_opt d "signature") = false ->
    truthy (js_get_opt d "txid") = false ->
    truthy (js_get_opt d "txSignature") = false ->
    raises transactionBase64 signTransaction endpoint JsonRpc
      (Error "Unexpected response format from 0slot endpoint")
| raises_connecting bytes e :
    prepared transactionBase64 signTransaction bytes ->
    new_Connection endpoint "confirmed" = Throw e ->
    raises transactionBase64 signTransaction endpoint Broadcast e
| raises_broadcasting bytes c e :
    prepared transactionBase64 signTransaction bytes ->
    new_Connection endpoint "confirmed" = Ok c ->
    sendRawTransaction c bytes (mkSendOptions true 0) = Throw e ->
    raises transactionBase64 signTransaction endpoint Broadcast e
| raises_showing bytes c signature :
    prepared transactionBase64 signTransaction bytes ->
    new_Connection endpoint "confirmed" = Ok c ->
    sendRawTransaction c bytes (mkSendOptions true 0) = Ok signature ->
    ToString signature = None ->
    raises transactionBase64 signTransaction endpoint Broadcast TypeError.

(** A console line of one text.  Every line the [try] of
    [executeSwapWithOSlot] writes is one; the line of its [catch] carries
    the error as a second argument. *)
Definition plain (line : Level * list Arg) : bool :=
  match snd line with
  | [AStr _] => true
  | _ => false
  end.

(** The line of the [catch] of [executeSwapWithOSlot]. *)
Definition caught_line (totalTime : string) (error : Exn)
  : Level * list Arg :=
  (ERROR,
   [AStr ("❌ 0slot execution error after " ++ totalTime ++ " seconds:");
    AExn error]).

(** The inputs of the worked examples. *)
Definition demo_relay : string := "https://de1.0slot.trade/?api-key=KEY".

Definition demo_rpc : string := "https://api.mainnet-beta.solana.com".

Definition demo_transaction : JsVal := JStr "AQID".

Definition demo_payer : string := "9xQeWvG816bUx9EPjHmaT23yvVM2ZWbrrpZb9PusVFin".

Definition demo_params (slippageBps : JsVal) : JsVal :=
  JObj [("inputMint", JStr "So11111111111111111111111111111111111111112");
        ("outputMint", JStr "EPjFWdd5AufqSSqeM2qN1xzybapC8G4wEGGkZwyTDt1v");
        ("amount", JNum 1000000000);
        ("slippageBps", slippageBps)].

(** A platform whose network answers every request with status
    [status_code] and the text [body], [body] being the JSON text of
    [parsed] when that is given. *)
Definition answering (status_code : Z) (reason body : string)
  (parsed : option JsVal) : Platform :=
  tablePlatform
    (match parsed with Some v => [(body, v)] | None => [] end)
    (always (mkResponse status_code reason body))
    (Ok (JStr "5VERv8NMvzbJMEkV8xnrLkEaWRtSz9CosKDYjCJjBRnbJLgp8uirBgmQpjKhoR4tjF3ZpRzrFmBV6UjKdiSZkQUW")).

(** The JSON text of [{result: '', txid: 'sig9'}]. *)
Definition body_empty_result : string :=
  "{" ++ quoted "result" ++ ":" ++ quoted EmptyString ++ ","
  ++ quoted "txid" ++ ":" ++ quoted "sig9" ++ "}".

(** The JSON text of
    [{result: null, error: {message: 'blockhash not found'}}]. *)
Definition body_null_result : string :=
  "{" ++ quoted "result" ++ ":null," ++ quoted "error" ++ ":{"
  ++ quoted "message" ++ ":" ++ quoted "blockhash not found" ++ "}}".

(** The JSON text of [{detail: 'boom'}]. *)
Definition body_detail : string :=
  "{" ++ quoted "detail" ++ ":" ++ quoted "boom" ++ "}".

(** The JSON text of [{message: 'rate limited'}]. *)
Definition body_rate_limited : string :=
  "{" ++ quoted "message" ++ ":" ++ quoted "rate limited" ++ "}".

(** The JSON text of [{txid: 'sig9'}]. *)
Definition body_txid : string :=
  "{" ++ quoted "txid" ++ ":" ++ quoted "sig9" ++ "}".

(** The JSON text of [{result: ''}]. *)
Definition body_only_result : string :=
  "{" ++ quoted "result" ++ ":" ++ quoted EmptyString ++ "}".

(** The JSON text of [{transaction: ''}]. *)
Definition body_only_transaction : string :=
  "{" ++ quoted "transaction" ++ ":" ++ quoted EmptyString ++ "}".

(** The JSON text of [{foo: 1}]. *)
Definition body_foo : string := "{" ++ quoted "foo" ++ ":1}".

(** The JSON text of [{tx: 'AQID'}]. *)
Definition body_tx : string :=
  "{" ++ quoted "tx" ++ ":" ++ quoted "AQID" ++ "}".

(** The JSON text of [{error: {message: ''}}]. *)
Definition body_empty_message : string :=
  "{" ++ quoted "error" ++ ":{" ++ quoted "message" ++ ":"
  ++ quoted EmptyString ++ "}}".

(** The JSON text of [{error: {}}]. *)
Definition body_no_message : string := "{" ++ quoted "error" ++ ":{}}".

(** ** Vocabulary of the further properties *)

(** The console lines a computation adds to those of the state it starts
    in. *)
Definition logged {P : Platform} {A : Type} (m : M A) (s : State)
  : list (Level * list Arg) :=
  skipn (List.length (console s)) (console (fst (m s))).


(** The platform [P] with another clock: other readings, of another type,
    printed another way.  Everything else is as in [P]. *)
Definition with_clock (P : Platform) (T : Type) (reading : nat -> T)
  (print : T -> T -> string) : Platform :=
  {| Time := T;
     performance_now := reading;
     toFixed5 := print;
     JSON_parse := @JSON_parse P;
     JSON_stringify := @JSON_stringify P;
     fetch := @fetch P;
     VersionedTransaction := @VersionedTransaction P;
     Buffer_from_base64 := @Buffer_from_base64 P;
     deserialize := @deserialize P;
     serialize := @serialize P;
     Connection := @Connection P;
     new_Connection := @new_Connection P;
     sendRawTransaction := @sendRawTransaction P |}.

(** A network that answers a GET with [get] and a POST with [post]. *)
Definition by_method (get post : Response) : Request -> Result Response :=
  fun q => match method q with GET => Ok get | POST => Ok post end.

(** The JSON text of [{data: {swapData: 'AQID', quote: {amountOut: 7}}}]. *)
Definition body_aggregator : string :=
  "{" ++ quoted "data" ++ ":{" ++ quoted "swapData" ++ ":" ++ quoted "AQID"
  ++ "," ++ quoted "quote" ++ ":{" ++ quoted "amountOut" ++ ":7}}}".

Definition parsed_aggregator : JsVal :=
  JObj [("data", JObj [("swapData", JStr "AQID");
                       ("quote", JObj [("amountOut", JNum 7)])])].

(** The JSON text of [{outAmount: '7'}]. *)
Definition body_quote : string :=
  "{" ++ quoted "outAmount" ++ ":" ++ quoted "7" ++ "}".

(** The JSON text of [{swapTransaction: 'AQID'}]. *)
Definition body_swap : string :=
  "{" ++ quoted "swapTransaction" ++ ":" ++ quoted "AQID" ++ "}".

(** A quote provider: the GET is answered with [{outAmount: '7'}], the
    POST with [{swapTransaction: 'AQID'}]. *)
Definition quote_provider : Platform :=
  tablePlatform
    [(body_quote, JObj [("outAmount", JStr "7")]);
     (body_swap, JObj [("swapTransaction", JStr "AQID")])]
    (by_method (mkResponse 200 "OK" body_quote)
       (mkResponse 200 "OK" body_swap))
    (Ok (JStr "sig")).

(** The text [null]. *)
Definition body_null : string := "null".

(** The platform [P] with the endpoint check of web3.js: a connection is
    made only to an endpoint that starts with [http]. *)
Definition checking_endpoint (P : Platform) : Platform :=
  {| Time := @Time P;
     performance_now := @performance_now P;
     toFixed5 := @toFixed5 P;
     JSON_parse := @JSON_parse P;
     JSON_stringify := @JSON_stringify P;
     fetch := @fetch P;
     VersionedTransaction := @VersionedTransaction P;
     Buffer_from_base64 := @Buffer_from_base64 P;
     deserialize := @deserialize P;
     serialize := @serialize P;
     Connection := @Connection P;
     new_Connection :=
       fun endpoint commitment =>
         if prefix "http" endpoint
         then @new_Connection P endpoint commitment
         else Throw (Error
                "Endpoint URL must start with `http:` or `https:`.");
     sendRawTransaction := @sendRawTransaction P |}.

(** The identifier the stub broadcast answers with. *)
Definition demo_signature : JsVal :=
  JStr "5VERv8NMvzbJMEkV8xnrLkEaWRtSz9CosKDYjCJjBRnbJLgp8uirBgmQpjKhoR4tjF3ZpRzrFmBV6UjKdiSZkQUW".

(** Swap parameters without an input mint, and the GET the aggregator
    branch sends for them. *)
Definition params_without_mint : JsVal :=
  JObj [("outputMint", JStr "EPjFWdd5AufqSSqeM2qN1xzybapC8G4wEGGkZwyTDt1v");
        ("amount", JNum 5);
        ("slippageBps", JNum 25)].

Definition request_without_mint : Request :=
  mkRequest GET
    "http://localhost:4000/swap?tokenIn=undefined&tokenOut=EPjFWdd5AufqSSqeM2qN1xzybapC8G4wEGGkZwyTDt1v&amount=5&sender=payer&slippage=25"
    json_headers None.

(** Swap parameters without an amount. *)
Definition params_without_amount : JsVal :=
  JObj [("inputMint", JStr "So11111111111111111111111111111111111111112");
        ("outputMint", JStr "EPjFWdd5AufqSSqeM2qN1xzybapC8G4wEGGkZwyTDt1v")].

(** The GET the aggregator branch sends for a slippage of -5. *)
Definition request_negative_slippage : Request :=
  mkRequest GET
    "http://localhost:4000/swap?tokenIn=So11111111111111111111111111111111111111112&tokenOut=EPjFWdd5AufqSSqeM2qN1xzybapC8G4wEGGkZwyTDt1v&amount=1000000000&sender=payer&slippage=-5"
    json_headers None.




(** The JSON text of [{result: 'sig9'}]. *)
Definition body_result : string :=
  "{" ++ quoted "result" ++ ":" ++ quoted "sig9" ++ "}".

(** * Properties *)

(** ** JavaScript values *)

Lemma truthy_text s : s <> EmptyString -> truthy (JStr s) = true.
Proof.
  intros H. simpl.
  destruct (String.eqb_spec s EmptyString); [contradiction | reflexivity].
Qed.

Lemma truthy_not_empty v : truthy v = true -> v <> JStr EmptyString.
Proof. intros H ->. discriminate H. Qed.

Lemma truthy_not_undefined v : truthy v = true -> v <> JUndefined.
Proof. intros H ->. discriminate H. Qed.

Lemma js_or_falsy v w : truthy v = false -> js_or v w = w.
Proof. unfold js_or. now intros ->. Qed.

Lemma js_get_defined d k :
  nullish d = false -> js_get d k = Some (js_get_opt d k).
Proof.
  unfold js_get_opt. destruct d; simpl; intros H; try discriminate; reflexivity.
Qed.

Lemma js_get_truthy d k :
  truthy d = true -> js_get d k = Some (js_get_opt d k).
Proof.
  intros H. apply js_get_defined. destruct d; simpl in *; congruence.
Qed.

Lemma lookup_remove_key_same k props : lookup k (remove_key k props) = None.
Proof.
  induction props as [|[k' v] rest IH]; simpl; [reflexivity|].
  destruct (String.eqb_spec k' k) as [E|N]; [exact IH|].
  simpl. destruct (String.eqb_spec k' k); [contradiction | exact IH].
Qed.

Lemma lookup_remove_key_other k k' props :
  k' <> k -> lookup k' (remove_key k props) = lookup k' props.
Proof.
  intros N. induction props as [|[k0 v] rest IH]; simpl; [reflexivity|].
  destruct (String.eqb_spec k0 k) as [E|N0].
  - subst k0. destruct (String.eqb_spec k k'); [congruence | exact IH].
  - simpl. now rewrite IH.
Qed.

Lemma skipn_length_app {A : Type} (l l' : list A) :
  skipn (List.length l) (l ++ l') = l'.
Proof. induction l; simpl; auto. Qed.

Lemma skipn_length_all {A : Type} (l : list A) :
  skipn (List.length l) l = [].
Proof. induction l; simpl; auto. Qed.


Lemma append_assoc (a b c : string) : ((a ++ b) ++ c = a ++ (b ++ c))%string.
Proof. induction a; simpl; congruence. Qed.

(** ** Stepping through a computation *)

Ltac step :=
  cbv beta iota zeta
    delta [response_json throw_new_Error bind now console_log console_error
           console_write lift http broadcast orTypeError ret throw try_catch
           clock console requests broadcasts fst snd negb].

(** Rewrites the reading of every field of a value that is not nullish. *)
Ltac read_fields d H :=
  repeat match goal with
         | |- context [js_get d ?k] => rewrite (js_get_defined d k H)
         end.

(** ** Protocol A: the answer of the relay *)

(** Runs [executeSwapWithOSlot] of the JSON-RPC revision up to the answer
    [r] of the relay. *)
Ltac reach_relay H :=
  let buffer := fresh "buffer" in
  let tx := fresh "tx" in
  let signed := fresh "signed" in
  let bytes := fresh "bytes" in
  let body_text := fresh "body_text" in
  let H1 := fresh in
  let H2 := fresh in
  let H3 := fresh in
  let H4 := fresh in
  let H5 := fresh in
  let H6 := fresh in
  destruct H as (buffer & tx & signed & bytes & body_text
                 & H1 & H2 & H3 & H4 & H5 & H6);
  unfold executeSwapWithOSlot, executeSwapWithOSlot_jsonrpc, jsonrpc_try,
    rethrow_timed;
  step;
  rewrite H1, H2, H3, H4, H5;
  step;
  rewrite H6.

Section RelayNormalization.
Context {P : Platform}.

(** C1, amended.  For every 200 answer of the relay whose body parses to a
    JSON value other than [null], the submission is decided by the first
    of these tests that holds, each a truthiness test: [result] truthy,
    the submission returns it unchanged (a [TypeError] if it cannot be
    printed for the log); else [error] truthy, it throws the
    ["0slot error: ..."] error; else [signature], then [txid], then
    [txSignature] truthy, it returns that field unchanged; else it throws
    the ["Unexpected response format"] error. *)
Theorem relay_200_decision_order tx conn sign ep s r d :
  relay_answers tx sign ep r ->
  status r = 200 ->
  JSON_parse (text r) = Some d ->
  nullish d = false ->
  let field := js_get_opt d in
  snd (executeSwapWithOSlot JsonRpc tx conn sign ep s) =
    if truthy (field "result") then
      match ToString (field "result") with
      | Some _ => Ok (field "result")
      | None => Throw TypeError
      end
    else if truthy (field "error") then
      match ToString (js_or (js_get_opt (field "error") "message")
                        (match JSON_stringify (field "error") with
                         | Some t => JStr t
                         | None => JUndefined
                         end)) with
      | Some detail => Throw (Error ("0slot error: " ++ detail))
      | None => Throw TypeError
      end
    else if truthy (field "signature") then Ok (field "signature")
    else if truthy (field "txid") then Ok (field "txid")
    else if truthy (field "txSignature") then Ok (field "txSignature")
    else Throw (Error "Unexpected response format from 0slot endpoint").
Proof.
  intros Hr Hs Hp Hn field.
  reach_relay Hr. rewrite Hs. cbn [Z.eqb Pos.eqb negb]. step. rewrite Hp.
  unfold relay_result. step.
  read_fields d Hn. fold field.
  destruct (truthy (field "result")).
  { destruct (ToString (field "result")); reflexivity. }
  destruct (truthy (field "error")).
  { match goal with |- _ = match ?t with _ => _ end => destruct t end;
      reflexivity. }
  destruct (truthy (field "signature")); [reflexivity|].
  destruct (truthy (field "txid")); [reflexivity|].
  destruct (truthy (field "txSignature")); reflexivity.
Qed.

End RelayNormalization.

(** The relay of the specification's fallback example answers
    [{txid: 'sig9'}]: the submission returns ['sig9']. *)
Lemma relay_200_decision_order_witness :
  let P :=
    answering 200 "OK" body_txid (Some (JObj [("txid", JStr "sig9")])) in
  snd (executeSwapWithOSlot JsonRpc demo_transaction demo_rpc stub_signer
         demo_relay idle) = Ok (JStr "sig9").
Proof.
  intros P.
  refine (eq_trans
            (relay_200_decision_order (P := P) demo_transaction demo_rpc
               stub_signer demo_relay idle (mkResponse 200 "OK" body_txid)
               (JObj [("txid", JStr "sig9")]) _ _ _ _) _).
  - exists (base64_decode "AQID"), (base64_decode "AQID").
    eexists. eexists. eexists.
    repeat split; vm_compute; reflexivity.
  - reflexivity.
  - reflexivity.
  - reflexivity.
  - vm_compute. reflexivity.
Defined.

(** C1 as stated fails.  The relay answers 200 with
    [{result: null, error: {message: 'blockhash not found'}}], the shape of
    a JSON-RPC failure that carries both members: the [result] field is
    present, yet the submission does not succeed with its value; it throws
    the relay's error.  Likewise on [{result: '', txid: 'sig9'}] the
    present [result] is passed over and the [txid] returned. *)
Lemma relay_present_result_skipped :
  let failure :=
    [("result", JNull);
     ("error", JObj [("message", JStr "blockhash not found")])] in
  let fallback := [("result", JStr EmptyString); ("txid", JStr "sig9")] in
  let P1 := answering 200 "OK" body_null_result (Some (JObj failure)) in
  let P2 := answering 200 "OK" body_empty_result (Some (JObj fallback)) in
  lookup "result" failure = Some JNull
  /\ snd (executeSwapWithOSlot (P := P1) JsonRpc demo_transaction demo_rpc
            stub_signer demo_relay idle) =
       Throw (Error "0slot error: blockhash not found")
  /\ lookup "result" fallback = Some (JStr EmptyString)
  /\ snd (executeSwapWithOSlot (P := P2) JsonRpc demo_transaction demo_rpc
            stub_signer demo_relay idle) = Ok (JStr "sig9").
Proof.
  intros failure fallback P1 P2.
  repeat split; vm_compute; reflexivity.
Qed.

Section RelayRejection.
Context {P : Platform}.

(** C3, amended.  Every non-200 answer of the relay makes the submission
    throw, with a message taken from the body in this order: the body
    parses to JSON (other than [null]) with a truthy [error]: the message
    is [error.message], else [error.code], else the generic status
    message; else the body has a truthy top-level [message]: that is the
    message; else the generic status message alone.  Only a body that is
    not JSON (or is [null]) has its raw text appended to the generic
    message. *)
Theorem relay_non200_message tx conn sign ep s r :
  relay_answers tx sign ep r ->
  status r <> 200 ->
  let generic :=
    "0slot execution failed: incorrect status code: "
    ++ number_toString (status r) in
  let raised (v : JsVal) :=
    match ToString v with
    | Some message => Throw (Error message)
    | None => Throw TypeError
    end in
  let with_raw_text :=
    Throw (Error (if (text r =? EmptyString)%string then generic
                  else generic ++ ", " ++ text r)) in
  snd (executeSwapWithOSlot JsonRpc tx conn sign ep s) =
    match JSON_parse (text r) with
    | None => with_raw_text
    | Some d =>
        if nullish d then with_raw_text
        else if truthy (js_get_opt d "error") then
          raised (js_or (js_get_opt (js_get_opt d "error") "message")
                    (js_or (js_get_opt (js_get_opt d "error") "code")
                       (JStr generic)))
        else if truthy (js_get_opt d "message") then
          raised (js_get_opt d "message")
        else Throw (Error generic)
    end.
Proof.
  intros Hr Hs generic raised with_raw_text.
  reach_relay Hr.
  apply Z.eqb_neq in Hs. rewrite Hs. cbn [negb].
  unfold relay_failure, relay_error_message. step. fold generic.
  destruct (JSON_parse (text r)) as [d|].
  2:{ destruct (text r =? EmptyString)%string; reflexivity. }
  destruct (nullish d) eqn:Hn.
  { destruct d; try discriminate Hn; simpl js_get; cbv iota;
      destruct (text r =? EmptyString)%string; reflexivity. }
  read_fields d Hn.
  destruct (truthy (js_get_opt d "error")).
  { unfold raised.
    match goal with |- _ = match ?t with _ => _ end => destruct t end;
      reflexivity. }
  destruct (truthy (js_get_opt d "message")).
  { unfold raised.
    match goal with |- _ = match ?t with _ => _ end => destruct t end;
      reflexivity. }
  reflexivity.
Qed.

End RelayRejection.

(** The specification's example: a 429 whose body is
    [{message: 'rate limited'}] is rejected with that message. *)
Lemma relay_non200_message_witness :
  let P :=
    answering 429 "Too Many Requests" body_rate_limited
      (Some (JObj [("message", JStr "rate limited")])) in
  snd (executeSwapWithOSlot JsonRpc demo_transaction demo_rpc stub_signer
         demo_relay idle) = Throw (Error "rate limited").
Proof.
  intros P.
  refine (eq_trans
            (relay_non200_message (P := P) demo_transaction demo_rpc
               stub_signer demo_relay idle
               (mkResponse 429 "Too Many Requests" body_rate_limited) _ _) _).
  - exists (base64_decode "AQID"), (base64_decode "AQID").
    eexists. eexists. eexists.
    repeat split; vm_compute; reflexivity.
  - discriminate.
  - vm_compute. reflexivity.
Defined.

(** C3 as stated fails.  The relay answers 500 with the JSON body
    [{detail: 'boom'}], which has neither [error.message] nor
    [error.code]: the message is the generic one alone, the raw body text
    is not appended to it. *)
Lemma relay_json_body_not_appended :
  let parsed := JObj [("detail", JStr "boom")] in
  let P :=
    answering 500 "Internal Server Error" body_detail (Some parsed) in
  let message := "0slot execution failed: incorrect status code: 500" in
  JSON_parse body_detail = Some parsed
  /\ js_get_opt parsed "error" = JUndefined
  /\ snd (executeSwapWithOSlot JsonRpc demo_transaction demo_rpc stub_signer
            demo_relay idle) = Throw (Error message)
  /\ includes body_detail message = false
  /\ includes "boom" message = false.
Proof.
  intros parsed P message.
  repeat split; vm_compute; reflexivity.
Qed.

(** ** Protocol A: the request *)

(** Splits on whatever the computation branches on next. *)
Ltac fork :=
  match goal with
  | |- context [match ?x with _ => _ end] =>
      lazymatch x with
      | context [match _ with _ => _ end] => fail
      | relay_failure _ _ _ _ => fail
      | relay_result _ _ _ _ => fail
      | _ => destruct x eqn:?
      end
  end;
  step.

Section RelayRequest.
Context {P : Platform}.

(** The non-200 block and the normalization of a 200 answer send nothing
    and broadcast nothing. *)
Lemma relay_failure_quiet r t1 t0 s :
  requests (fst (relay_failure r t1 t0 s)) = requests s
  /\ broadcasts (fst (relay_failure r t1 t0 s)) = broadcasts s.
Proof.
  destruct s. unfold relay_failure. step.
  destruct (ToString _); split; reflexivity.
Qed.

Lemma relay_result_quiet d rt tt s :
  requests (fst (relay_result d rt tt s)) = requests s
  /\ broadcasts (fst (relay_result d rt tt s)) = broadcasts s.
Proof.
  destruct s. unfold relay_result. step.
  repeat fork; split; reflexivity.
Qed.

End RelayRequest.

(** Replaces the state a block of the relay answer ends in by what the
    two lemmas above say of it. *)
Ltac quiet_blocks :=
  repeat match goal with
         | |- context [relay_failure ?a ?b ?c ?d] =>
             let Q := fresh in
             let Q' := fresh in
             destruct (relay_failure_quiet a b c d) as [Q Q'];
             destruct (relay_failure a b c d) as [[? ? ? ?] [?|?]];
             cbn [fst requests broadcasts] in Q, Q'; subst
         | |- context [relay_result ?a ?b ?c ?d] =>
             let Q := fresh in
             let Q' := fresh in
             destruct (relay_result_quiet a b c d) as [Q Q'];
             destruct (relay_result a b c d) as [[? ? ? ?] [?|?]];
             cbn [fst requests broadcasts] in Q, Q'; subst
         end;
  step.

Section RelayEnvelope.
Context {P : Platform}.

(** C6, amended.  Whenever the transaction decodes, is signed and
    serializes, the submission sends exactly one request: a POST to the
    relay endpoint, with the JSON content type, whose body is the JSON text
    of the JSON-RPC 2.0 envelope with [id] 1, method [sendTransaction] and
    params [[base64 of the signed bytes, {encoding: base64, skipPreflight:
    true, preflightCommitment: processed, maxRetries: 0, minContextSlot:
    null}]]. *)
Theorem relay_request_envelope tx conn sign ep s buffer vt signed bytes
  body_text :
  Buffer_from_base64 tx = Ok buffer ->
  deserialize buffer = Ok vt ->
  sign vt = Ok signed ->
  serialize signed = Ok bytes ->
  JSON_stringify
    (JObj [("jsonrpc", JStr "2.0");
           ("id", JNum 1);
           ("method", JStr "sendTransaction");
           ("params",
            JArr [JStr (base64_encode bytes);
                  JObj [("encoding", JStr "base64");
                        ("skipPreflight", JBool true);
                        ("preflightCommitment", JStr "processed");
                        ("maxRetries", JNum 0);
                        ("minContextSlot", JNull)]])]) = Some body_text ->
  issued (executeSwapWithOSlot JsonRpc tx conn sign ep) s =
    [mkRequest POST ep [("Content-Type", "application/json")]
       (Some body_text)].
Proof.
  intros H1 H2 H3 H4 H5.
  change (JObj _) with (payload (base64_encode bytes)) in H5.
  destruct s as [c k q b].
  unfold issued, executeSwapWithOSlot, executeSwapWithOSlot_jsonrpc,
    jsonrpc_try, rethrow_timed.
  step. rewrite H1, H2, H3, H4, H5. step.
  destruct (fetch _) as [r|e]; step; [|apply skipn_length_app].
  destruct (status r =? 200); step.
  - destruct (JSON_parse (text r)) as [d|]; step; [|apply skipn_length_app].
    quiet_blocks; apply skipn_length_app.
  - quiet_blocks; apply skipn_length_app.
Qed.

End RelayEnvelope.

(** The stub signer's transaction goes out as [AQID/w==] in the envelope. *)
Lemma relay_request_envelope_witness :
  let P :=
    answering 200 "OK" body_txid (Some (JObj [("txid", JStr "sig9")])) in
  issued (executeSwapWithOSlot JsonRpc demo_transaction demo_rpc
            stub_signer demo_relay) idle =
    [mkRequest POST demo_relay [("Content-Type", "application/json")]
       (Some (stringify_value (payload "AQID/w==")))].
Proof.
  intros P.
  apply (relay_request_envelope (P := P) demo_transaction demo_rpc
           stub_signer demo_relay idle
           (base64_decode "AQID") (base64_decode "AQID")
           (base64_decode "AQID/w==") (base64_decode "AQID/w==")).
  - vm_compute. reflexivity.
  - reflexivity.
  - vm_compute. reflexivity.
  - reflexivity.
  - vm_compute. reflexivity.
Defined.

(** C6 as stated fails.  The options object on the wire has a fifth
    member, [minContextSlot: null]: the body sent holds it and does not
    hold the JSON text of params with a four-member options object. *)
Lemma relay_request_fifth_option :
  let P :=
    answering 200 "OK" body_txid (Some (JObj [("txid", JStr "sig9")])) in
  let claimed_params :=
    JArr [JStr "AQID/w==";
          JObj [("encoding", JStr "base64");
                ("skipPreflight", JBool true);
                ("preflightCommitment", JStr "processed");
                ("maxRetries", JNum 0)]] in
  let body_text := stringify_value (payload "AQID/w==") in
  issued (executeSwapWithOSlot JsonRpc demo_transaction demo_rpc
            stub_signer demo_relay) idle =
    [mkRequest POST demo_relay json_headers (Some body_text)]
  /\ JSON_stringify claimed_params = Some (stringify_value claimed_params)
  /\ includes (stringify_value claimed_params) body_text = false
  /\ includes (quoted "minContextSlot" ++ ":null") body_text = true.
Proof.
  intros P claimed_params body_text.
  repeat split; vm_compute; reflexivity.
Qed.

(** ** The catch of [executeSwapWithOSlot] *)

Section BlockLines.
Context {P : Platform}.

(** The non-200 block and the normalization of a 200 answer write plain
    lines only. *)
Lemma relay_failure_lines r t1 t0 s :
  exists lines,
    console (fst (relay_failure r t1 t0 s)) = (console s ++ lines)%list
    /\ forallb plain lines = true.
Proof.
  destruct s as [c k q b]. unfold relay_failure. step.
  destruct (ToString _); rewrite <- !app_assoc;
    (eexists; split; [reflexivity | reflexivity]).
Qed.

Lemma relay_result_lines d rt tt s :
  exists lines,
    console (fst (relay_result d rt tt s)) = (console s ++ lines)%list
    /\ forallb plain lines = true.
Proof.
  destruct s as [c k q b]. unfold relay_result. step.
  repeat fork; rewrite <- ?app_assoc;
    first [ exists []; split; [symmetry; apply app_nil_r | reflexivity]
          | eexists; split; [reflexivity | reflexivity] ].
Qed.

End BlockLines.

(** Replaces the console a block of the relay answer ends in by what the
    two lemmas above say of it. *)
Ltac lined_blocks :=
  repeat match goal with
         | |- context [relay_failure ?a ?b ?c ?d] =>
             let lines := fresh "lines" in
             let L := fresh in
             let F := fresh "F" in
             destruct (relay_failure_lines a b c d) as (lines & L & F);
             destruct (relay_failure a b c d) as [[? ? ? ?] [?|?]];
             cbn [fst console] in L; subst
         | |- context [relay_result ?a ?b ?c ?d] =>
             let lines := fresh "lines" in
             let L := fresh in
             let F := fresh "F" in
             destruct (relay_result_lines a b c d) as (lines & L & F);
             destruct (relay_result a b c d) as [[? ? ? ?] [?|?]];
             cbn [fst console] in L; subst
         end;
  step.

(** Exhibits the lines a run has added, all of them plain. *)
Ltac show_lines :=
  rewrite <- ?app_assoc;
  first [ exists []; split; [symmetry; apply app_nil_r | reflexivity]
        | eexists; split;
          [ reflexivity
          | rewrite ?forallb_app;
            repeat match goal with F : forallb plain _ = true |- _ =>
                     rewrite F end;
            reflexivity ] ].

(** Runs [executeSwapWithOSlot] of either revision through its
    preparation. *)
Ltac reach_request H :=
  let buffer := fresh "buffer" in
  let tx := fresh "tx" in
  let signed := fresh "signed" in
  let H1 := fresh in
  let H2 := fresh in
  let H3 := fresh in
  let H4 := fresh in
  destruct H as (buffer & tx & signed & H1 & H2 & H3 & H4);
  unfold executeSwapWithOSlot, executeSwapWithOSlot_jsonrpc,
    executeSwapWithOSlot_broadcast, jsonrpc_try, broadcast_try,
    rethrow_timed;
  step;
  rewrite H1, H2, H3, H4;
  step.

Section Rethrow.
Context {P : Platform}.

(** The [try] of the JSON-RPC revision sends at most one request and
    broadcasts nothing. *)
Lemma jsonrpc_try_one_request tx sign ep t0 s :
  (List.length (requests (fst (jsonrpc_try tx sign ep t0 s)))
   <= List.length (requests s) + 1)%nat
  /\ broadcasts (fst (jsonrpc_try tx sign ep t0 s)) = broadcasts s.
Proof.
  destruct s as [c k q b]. unfold jsonrpc_try. step.
  repeat fork; quiet_blocks;
    rewrite ?length_app; cbn [List.length]; split; (lia || reflexivity).
Qed.

(** The [try] of the broadcast revision sends no request and broadcasts
    at most once. *)
Lemma broadcast_try_one_broadcast tx sign ep t0 s :
  requests (fst (broadcast_try tx sign ep t0 s)) = requests s
  /\ (List.length (broadcasts (fst (broadcast_try tx sign ep t0 s)))
      <= List.length (broadcasts s) + 1)%nat.
Proof.
  destruct s as [c k q b]. unfold broadcast_try. step.
  repeat fork;
    rewrite ?length_app; cbn [List.length]; split; (lia || reflexivity).
Qed.

(** The [try] of either revision writes plain lines only. *)
Lemma jsonrpc_try_lines tx sign ep t0 s :
  exists lines,
    console (fst (jsonrpc_try tx sign ep t0 s)) = (console s ++ lines)%list
    /\ forallb plain lines = true.
Proof.
  destruct s as [c k q b]. unfold jsonrpc_try. step.
  repeat fork; lined_blocks; cbn [fst console]; show_lines.
Qed.

Lemma broadcast_try_lines tx sign ep t0 s :
  exists lines,
    console (fst (broadcast_try tx sign ep t0 s)) = (console s ++ lines)%list
    /\ forallb plain lines = true.
Proof.
  destruct s as [c k q b]. unfold broadcast_try. step.
  repeat fork; cbn [fst console]; show_lines.
Qed.

(** C8, amended.  In both revisions of [executeSwapWithOSlot]:
    - an exception [e] raised at any step of the [try] outside the inner
      [try] of the non-200 block (the steps that [raises] lists) is what
      the submission throws, the same value;
    - whenever the submission throws [e], the [catch] has run once: the
      last console line is its line, with the duration from the first
      clock reading to the last and with [e], and every line before it is
      a plain line of the [try];
    - whenever the submission returns, the [catch] has not run: every line
      is a plain line of the [try];
    - the submission reaches the network at most once: no retry;
    - the exception of reading a non-200 body as JSON (the body does not
      parse, or is [null]) is not among those steps: the inner [catch]
      keeps it, and the submission throws the generic status error with
      the raw text instead. *)
Theorem submit_rethrows_unchanged rev tx conn sign ep s :
  let run := executeSwapWithOSlot rev tx conn sign ep s in
  (forall e, raises tx sign ep rev e -> snd run = Throw e)
  /\ (forall e,
         snd run = Throw e ->
         exists lines,
           console (fst run) =
             (console s ++ lines ++
              [caught_line
                 (toFixed5 (performance_now (clock s))
                    (performance_now (Nat.pred (clock (fst run)))))
                 e])%list
           /\ forallb plain lines = true)
  /\ (forall id,
         snd run = Ok id ->
         exists lines,
           console (fst run) = (console s ++ lines)%list
           /\ forallb plain lines = true)
  /\ (List.length (requests (fst run)) + List.length (broadcasts (fst run))
      <= List.length (requests s) + List.length (broadcasts s) + 1)%nat
  /\ (forall r,
         rev = JsonRpc ->
         relay_answers tx sign ep r ->
         status r <> 200 ->
         JSON_parse (text r) = None
         \/ (exists d, JSON_parse (text r) = Some d /\ nullish d = true) ->
         let generic :=
           "0slot execution failed: incorrect status code: "
           ++ number_toString (status r) in
         snd run =
           Throw (Error (if (text r =? EmptyString)%string then generic
                         else generic ++ ", " ++ text r))).
Proof.
  intros run.
  pose (t0 := performance_now (clock s)).
  pose (s0 := mkState (S (clock s)) (console s) (requests s) (broadcasts s)).
  pose (attempt :=
          match rev with
          | JsonRpc => jsonrpc_try tx sign ep t0
          | Broadcast => broadcast_try tx sign ep t0
          end).
  assert (E : run =
    match attempt s0 with
    | (s1, Ok id) => (s1, Ok id)
    | (s1, Throw e) =>
        (mkState (S (clock s1))
           (console s1 ++
            [caught_line (toFixed5 t0 (performance_now (clock s1))) e])
           (requests s1) (broadcasts s1),
         Throw e)
    end).
  { subst run attempt. destruct rev; reflexivity. }
  assert (L : exists lines,
             console (fst (attempt s0)) = (console s ++ lines)%list
             /\ forallb plain lines = true).
  { subst attempt. destruct rev.
    - apply (jsonrpc_try_lines tx sign ep t0 s0).
    - apply (broadcast_try_lines tx sign ep t0 s0). }
  split; [|split; [|split; [|split]]].
  - intros e H. clear E L. subst run attempt s0 t0. destruct s as [c k q b].
    destruct H as
      [ rev e H
      | bytes H G
      | bytes body_text e H G F
      | r H N
      | r H N J
      | r d H N J D
      | r d H N J T S
      | r d H N J T T'
      | r d H N J D T1 T2 T3 T4 T5
      | bytes e H C
      | bytes c' e H C B
      | bytes c' v H C B S ].
    + destruct rev;
        unfold executeSwapWithOSlot, executeSwapWithOSlot_jsonrpc,
          executeSwapWithOSlot_broadcast, jsonrpc_try, broadcast_try,
          rethrow_timed;
        step;
        (destruct H as [H|(buffer & H1 & [H|(vt & H2 & [H|(signed & H3 & H)])])];
         rewrite ?H1; step; rewrite ?H2; step; rewrite ?H3; step; rewrite H;
         reflexivity).
    + reach_request H. rewrite G. reflexivity.
    + reach_request H. rewrite G. step. rewrite F. reflexivity.
    + reach_relay H. apply Z.eqb_neq in N. rewrite N. cbn [negb].
      unfold relay_failure, new_Error. step.
      destruct (ToString _); reflexivity.
    + reach_relay H. rewrite N. cbn [Z.eqb Pos.eqb negb]. step. rewrite J.
      reflexivity.
    + reach_relay H. rewrite N. cbn [Z.eqb Pos.eqb negb]. step. rewrite J.
      unfold relay_result. step.
      destruct d; try discriminate D; reflexivity.
    + reach_relay H. rewrite N. cbn [Z.eqb Pos.eqb negb]. step. rewrite J.
      unfold relay_result. step.
      assert (D : nullish d = false).
      { destruct d; try reflexivity; discriminate T. }
      read_fields d D. rewrite T. step. rewrite S. reflexivity.
    + reach_relay H. rewrite N. cbn [Z.eqb Pos.eqb negb]. step. rewrite J.
      unfold relay_result. step.
      assert (D : nullish d = false).
      { destruct d; try reflexivity; discriminate T'. }
      read_fields d D. rewrite T. step. rewrite T'. step.
      match goal with |- context [ToString ?v] => destruct (ToString v) end;
        reflexivity.
    + reach_relay H. rewrite N. cbn [Z.eqb Pos.eqb negb]. step. rewrite J.
      unfold relay_result. step.
      read_fields d D. rewrite T1. step. rewrite T2. step. rewrite T3. step.
      rewrite T4. step. rewrite T5. reflexivity.
    + reach_request H. rewrite C. reflexivity.
    + reach_request H. rewrite C. step. rewrite B. reflexivity.
    + reach_request H. rewrite C. step. rewrite B. step. rewrite S.
      reflexivity.
  - intros e H. rewrite E in *. destruct L as (lines & L & F).
    destruct (attempt s0) as [s1 [id|e']]; cbn [fst snd] in *;
      [discriminate H|].
    injection H as ->. exists lines. split; [|exact F].
    cbn [console clock Nat.pred]. rewrite L, <- app_assoc. reflexivity.
  - intros id H. rewrite E in *. destruct L as (lines & L & F).
    destruct (attempt s0) as [s1 [id'|e']]; cbn [fst snd] in *;
      [|discriminate H].
    exists lines. split; [exact L | exact F].
  - rewrite E.
    assert (B : (List.length (requests (fst (attempt s0)))
                 + List.length (broadcasts (fst (attempt s0)))
                 <= List.length (requests s) + List.length (broadcasts s)
                    + 1)%nat).
    { subst attempt. destruct rev.
      - destruct (jsonrpc_try_one_request tx sign ep t0 s0) as [A B].
        rewrite B. subst s0. cbn [requests broadcasts] in *. lia.
      - destruct (broadcast_try_one_broadcast tx sign ep t0 s0) as [A B].
        rewrite A. subst s0. cbn [requests broadcasts] in *. lia. }
    destruct (attempt s0) as [s1 [id|e]];
      cbn [fst requests broadcasts] in *; exact B.
  - intros r -> H N J generic. clear E L. subst run attempt s0 t0.
    destruct s as [c k q b].
    reach_relay H. apply Z.eqb_neq in N. rewrite N. cbn [negb].
    unfold relay_failure, relay_error_message. step. fold generic.
    destruct J as [J|(d & J & D)]; rewrite J.
    + destruct (text r =? EmptyString)%string; reflexivity.
    + destruct d; try discriminate D; simpl js_get; cbv iota;
        destruct (text r =? EmptyString)%string; reflexivity.
Qed.

End Rethrow.

(** A wallet that refuses to sign, in either revision: the refusal is what
    the submission throws. *)
Lemma submit_rethrows_unchanged_witness :
  let P := answering 200 "OK" body_txid None in
  let refusal := Rejection (JStr "User rejected the request.") in
  snd (executeSwapWithOSlot JsonRpc demo_transaction demo_rpc
         (fun _ => Throw refusal) demo_relay idle) = Throw refusal
  /\ snd (executeSwapWithOSlot Broadcast demo_transaction demo_rpc
            (fun _ => Throw refusal) demo_relay idle) = Throw refusal.
Proof.
  intros P refusal.
  split.
  - apply (proj1 (submit_rethrows_unchanged (P := P) JsonRpc demo_transaction
                    demo_rpc (fun _ => Throw refusal) demo_relay idle)).
    apply raises_preparing.
    right. exists (base64_decode "AQID"). split; [reflexivity|].
    right. exists (base64_decode "AQID"). split; [reflexivity|].
    left. reflexivity.
  - apply (proj1 (submit_rethrows_unchanged (P := P) Broadcast
                    demo_transaction demo_rpc (fun _ => Throw refusal)
                    demo_relay idle)).
    apply raises_preparing.
    right. exists (base64_decode "AQID"). split; [reflexivity|].
    right. exists (base64_decode "AQID"). split; [reflexivity|].
    left. reflexivity.
Defined.

(** C8 as stated fails.  The relay answers 500 with the text [boom], which
    is not JSON: [JSON.parse] raises a [SyntaxError] inside the non-200
    block, the inner [catch] keeps it, and what the caller receives (and
    the line of the top-level [catch] carries) is another value, the
    generic error with the raw text.  The same text under status 200 is
    read by [response.json()], outside the inner [try], and there the
    [SyntaxError] does reach the caller. *)
Lemma relay_parse_error_swallowed :
  let P := answering 500 "Internal Server Error" "boom" None in
  let P' := answering 200 "OK" "boom" None in
  let run :=
    executeSwapWithOSlot (P := P) JsonRpc demo_transaction demo_rpc
      stub_signer demo_relay idle in
  let message := "0slot execution failed: incorrect status code: 500, boom" in
  JSON_parse (Platform := P) "boom" = None
  /\ snd run = Throw (Error message)
  /\ snd run <> Throw SyntaxError
  /\ last (console (fst run)) (LOG, []) = caught_line "0.00800" (Error message)
  /\ snd (executeSwapWithOSlot (P := P') JsonRpc demo_transaction demo_rpc
            stub_signer demo_relay idle) = Throw SyntaxError.
Proof.
  intros P P' run message.
  assert (R : snd run = Throw (Error message)) by (vm_compute; reflexivity).
  split; [reflexivity|]. split; [exact R|].
  split; [rewrite R; discriminate|].
  split; vm_compute; reflexivity.
Qed.

(** A wallet that refuses to sign: the refusal comes out as it went in,
    after one console line that carries it. *)
Example wallet_refusal_rethrown :
  let P := answering 200 "OK" body_txid None in
  let refusal := Rejection (JStr "User rejected the request.") in
  let run rev :=
    executeSwapWithOSlot rev demo_transaction demo_rpc
      (fun _ => Throw refusal) demo_relay idle in
  snd (run JsonRpc) = Throw refusal
  /\ snd (run Broadcast) = Throw refusal
  /\ last (console (fst (run JsonRpc))) (LOG, []) =
       (ERROR, [AStr "❌ 0slot execution error after 0.00200 seconds:";
                AExn refusal])
  /\ requests (fst (run JsonRpc)) = []
  /\ broadcasts (fst (run Broadcast)) = [].
Proof.
  intros P refusal run. repeat split; vm_compute; reflexivity.
Qed.

(** ** [fetchSwapTransaction]: the requests *)







(** Brings the requests a run has added into the open. *)
Ltac tidy_requests :=
  rewrite <- ?app_assoc; cbn [app];
  rewrite ?skipn_length_app, ?skipn_length_all.

Section FetchRequests.
Context {P : Platform}.

(** The aggregator branch sends nothing when the URL cannot be built, and
    else the one GET of that URL. *)
Lemma aggregator_branch_requests ep params pk s :
  issued (aggregator_branch ep params pk) s =
    match aggregator_url ep params pk with
    | Some u => [mkRequest GET u json_headers None]
    | None => []
    end.
Proof.
  destruct s as [c k q b].
  unfold issued, aggregator_branch, aggregator_result. step.
  destruct (aggregator_url ep params pk) as [u|]; step;
    [|apply skipn_length_all].
  repeat fork; tidy_requests; reflexivity.
Qed.

(** The quote branch sends nothing when the URL cannot be built; else the
    GET of that URL, and after it the swap-construction POST when the
    quote came back 2xx with a JSON body. *)
Lemma quote_branch_requests ep params pk s :
  issued (quote_branch ep params pk) s =
    match quote_url ep params with
    | None => []
    | Some u =>
        mkRequest GET u [] None ::
        match fetch (mkRequest GET u [] None) with
        | Throw _ => []
        | Ok r =>
            if negb (ok r) then []
            else match JSON_parse (text r) with
                 | Some quoteData => [swap_request quoteData pk]
                 | None => []
                 end
        end
    end.
Proof.
  destruct s as [c k q b].
  unfold issued, quote_branch, quote_result. step.
  destruct (quote_url ep params) as [u|]; step; [|apply skipn_length_all].
  destruct (fetch (mkRequest GET u [] None)) as [r|e]; step;
    [|tidy_requests; reflexivity].
  destruct (ok r); step; [|tidy_requests; reflexivity].
  destruct (JSON_parse (text r)) as [quoteData|]; step;
    [|tidy_requests; reflexivity].
  repeat fork; tidy_requests; reflexivity.
Qed.


(** The [catch] of [fetchSwapTransaction] sends nothing. *)
Lemma rethrown_requests (branch : M JsVal) h s :
  h = (fun error : Exn =>
         console_error [AStr "Error fetching swap transaction:"; AExn error] ;;
         throw error) ->
  issued (try_catch branch h) s = issued branch s.
Proof.
  intros ->. unfold issued. step.
  destruct (branch s) as [[c k q b] [v|e]]; reflexivity.
Qed.

End FetchRequests.

Section BranchPriority.
Context {P : Platform}.


End BranchPriority.

(** An endpoint with both an aggregator marker and a quote marker: the
    aggregator GET goes out, in either revision. *)
Example aggregator_marker_wins :
  let P := answering 200 "OK" body_tx (Some (JObj [("tx", JStr "AQID")])) in
  let sent ep rev :=
    map (fun q => (method q, url q))
      (issued (fetchSwapTransaction rev ep (demo_params (JNum 25)) "payer")
         idle) in
  is_quote "http://localhost:4000/quote" = true
  /\ sent "http://localhost:4000/quote" JsonRpc =
       [(GET,
         "http://localhost:4000/quote?tokenIn=So11111111111111111111111111111111111111112&tokenOut=EPjFWdd5AufqSSqeM2qN1xzybapC8G4wEGGkZwyTDt1v&amount=1000000000&sender=payer&slippage=25")]
  /\ sent "http://localhost:4000/quote" Broadcast =
       [(GET,
         "http://localhost:4000/quote?inputMint=So11111111111111111111111111111111111111112&outputMint=EPjFWdd5AufqSSqeM2qN1xzybapC8G4wEGGkZwyTDt1v&amount=1000000000&slippageBps=25");
        (POST, "https://quote-api.jup.ag/v6/swap")]
  /\ sent "https://metaagg.velvetdao.xyz/api/v1/quote" Broadcast =
       [(GET,
         "https://metaagg.velvetdao.xyz/api/v1/quote?tokenIn=So11111111111111111111111111111111111111112&tokenOut=EPjFWdd5AufqSSqeM2qN1xzybapC8G4wEGGkZwyTDt1v&amount=1000000000&sender=payer&slippage=25")]
  /\ sent "https://swap.example/api" JsonRpc =
       [(POST, "https://swap.example/api")].
Proof.
  intros P sent. repeat split; vm_compute; reflexivity.
Qed.

(** ** [fetchSwapTransaction]: answers that are not 2xx *)

Section FetchErrors.
Context {P : Platform}.

(** C7, amended.  A non-2xx answer at any provider step makes
    [fetchSwapTransaction] throw an [Error] whose message is, step by
    step: aggregator GET, the status text and the body text; quote GET,
    the status text only; swap-construction POST, the body text only;
    legacy POST, the status text only. *)
Theorem fetch_non2xx_messages rev ep params pk s :
  let outcome := snd (fetchSwapTransaction rev ep params pk s) in
  (forall u r,
      is_aggregator rev ep = true ->
      aggregator_url ep params pk = Some u ->
      fetch (mkRequest GET u json_headers None) = Ok r ->
      ok r = false ->
      outcome =
        Throw (Error ("Failed to fetch swap transaction: "
                      ++ statusText r ++ " - " ++ text r)))
  /\ (forall u r,
         is_aggregator rev ep = false ->
         is_quote ep = true ->
         quote_url ep params = Some u ->
         fetch (mkRequest GET u [] None) = Ok r ->
         ok r = false ->
         outcome = Throw (Error ("Failed to get quote: " ++ statusText r)))
  /\ (forall u r quoteData r',
         is_aggregator rev ep = false ->
         is_quote ep = true ->
         quote_url ep params = Some u ->
         fetch (mkRequest GET u [] None) = Ok r ->
         ok r = true ->
         JSON_parse (text r) = Some quoteData ->
         fetch (swap_request quoteData pk) = Ok r' ->
         ok r' = false ->
         outcome =
           Throw (Error ("Failed to get swap transaction: " ++ text r')))
  /\ (forall r,
         is_aggregator rev ep = false ->
         is_quote ep = false ->
         fetch (legacy_request ep params) = Ok r ->
         ok r = false ->
         outcome =
           Throw (Error ("Failed to fetch swap transaction: "
                         ++ statusText r))).
Proof.
  intros outcome. subst outcome. destruct s as [c k q b].
  unfold fetchSwapTransaction.
  repeat split.
  - intros u r Ha Hu Hf Hk. rewrite Ha.
    unfold aggregator_branch. step. rewrite Hu. step. rewrite Hf, Hk.
    reflexivity.
  - intros u r Ha Hq Hu Hf Hk. rewrite Ha, Hq.
    unfold quote_branch. step. rewrite Hu. step. rewrite Hf, Hk.
    reflexivity.
  - intros u r quoteData r' Ha Hq Hu Hf Hk Hj Hf' Hk'. rewrite Ha, Hq.
    unfold quote_branch. step. rewrite Hu. step. rewrite Hf, Hk. step.
    rewrite Hj. step. rewrite Hf', Hk'. reflexivity.
  - intros r Ha Hq Hf Hk. rewrite Ha, Hq.
    unfold legacy_branch. step. rewrite Hf, Hk. reflexivity.
Qed.

End FetchErrors.

(** A legacy provider answers 500 with the text [boom]. *)
Lemma fetch_non2xx_messages_witness :
  let P := answering 500 "Internal Server Error" "boom" None in
  snd (fetchSwapTransaction JsonRpc "https://swap.example/api"
         (demo_params (JNum 25)) demo_payer idle) =
    Throw (Error "Failed to fetch swap transaction: Internal Server Error").
Proof.
  intros P.
  apply (proj2 (proj2 (proj2
           (fetch_non2xx_messages (P := P) JsonRpc "https://swap.example/api"
              (demo_params (JNum 25)) demo_payer idle)))
           (mkResponse 500 "Internal Server Error" "boom")).
  - vm_compute. reflexivity.
  - vm_compute. reflexivity.
  - reflexivity.
  - reflexivity.
Defined.

(** C7 as stated fails.  A legacy provider answers 500 with the body
    [boom]: the error carries the status text and not the body text.  The
    same holds of the quote GET. *)
Lemma fetch_error_drops_body :
  let P := answering 500 "Internal Server Error" "boom" None in
  let legacy :=
    "Failed to fetch swap transaction: Internal Server Error" in
  let quote := "Failed to get quote: Internal Server Error" in
  snd (fetchSwapTransaction JsonRpc "https://swap.example/api"
         (demo_params (JNum 25)) demo_payer idle) = Throw (Error legacy)
  /\ includes "boom" legacy = false
  /\ snd (fetchSwapTransaction JsonRpc "https://quote-api.jup.ag/v6/quote"
            (demo_params (JNum 25)) demo_payer idle) = Throw (Error quote)
  /\ includes "boom" quote = false.
Proof.
  intros P legacy quote. repeat split; vm_compute; reflexivity.
Qed.

(** ** [fetchSwapTransaction]: the body of a 2xx answer *)

Section FetchResults.
Context {P : Platform}.

(** Whatever [fetchSwapTransaction] returns is truthy: never [undefined],
    never [null], never the empty string. *)
Lemma fetch_returns_truthy rev ep params pk s v :
  snd (fetchSwapTransaction rev ep params pk s) = Ok v -> truthy v = true.
Proof.
  destruct s as [c k q b].
  unfold fetchSwapTransaction, aggregator_branch, aggregator_result,
    quote_branch, quote_result, legacy_branch, legacy_result.
  step.
  repeat fork; intros [= <-]; congruence.
Qed.

(** C4, amended.  In each branch, a 2xx answer whose body parses to a JSON
    value other than [null] in which every recognized field is missing (or
    falsy) makes [fetchSwapTransaction] throw the fixed ["Invalid response
    format ..."] error of the branch, a text that does not depend on the
    body; and [fetchSwapTransaction] never returns [undefined] or an empty
    string. *)
Theorem fetch_unrecognized_body_fails rev ep params pk s :
  let outcome := snd (fetchSwapTransaction rev ep params pk s) in
  (forall u r d,
      is_aggregator rev ep = true ->
      aggregator_url ep params pk = Some u ->
      fetch (mkRequest GET u json_headers None) = Ok r ->
      ok r = true ->
      JSON_parse (text r) = Some d ->
      nullish d = false ->
      truthy (js_get_opt (js_get_opt d "data") "swapData") = false ->
      outcome =
        Throw (Error
          "Invalid response format from swap endpoint. Expected data.swapData"))
  /\ (forall u r quoteData r' d,
         is_aggregator rev ep = false ->
         is_quote ep = true ->
         quote_url ep params = Some u ->
         fetch (mkRequest GET u [] None) = Ok r ->
         ok r = true ->
         JSON_parse (text r) = Some quoteData ->
         fetch (swap_request quoteData pk) = Ok r' ->
         ok r' = true ->
         JSON_parse (text r') = Some d ->
         nullish d = false ->
         truthy (js_get_opt d "swapTransaction") = false ->
         outcome =
           Throw (Error "Invalid response format from Jupiter swap API"))
  /\ (forall r d,
         is_aggregator rev ep = false ->
         is_quote ep = false ->
         fetch (legacy_request ep params) = Ok r ->
         ok r = true ->
         JSON_parse (text r) = Some d ->
         nullish d = false ->
         truthy (js_get_opt d "transaction") = false ->
         truthy (js_get_opt d "swapTransaction") = false ->
         truthy (js_get_opt d "tx") = false ->
         outcome =
           Throw (Error "Invalid response format from swap endpoint"))
  /\ (forall v,
         outcome = Ok v ->
         truthy v = true /\ v <> JUndefined /\ v <> JStr EmptyString).
Proof.
  intros outcome. subst outcome.
  split; [|split; [|split]].
  - destruct s as [c k q b]. unfold fetchSwapTransaction.
    intros u r d Ha Hu Hf Hk Hj Hn Hd. rewrite Ha.
    unfold aggregator_branch. step. rewrite Hu. step. rewrite Hf, Hk. step.
    rewrite Hj. step. unfold aggregator_result. step.
    rewrite (js_get_defined d "data" Hn).
    destruct (truthy (js_get_opt d "data")) eqn:T; step.
    + rewrite (js_get_truthy _ "swapData" T), Hd. reflexivity.
    + rewrite T. reflexivity.
  - destruct s as [c k q b]. unfold fetchSwapTransaction.
    intros u r quoteData r' d Ha Hq Hu Hf Hk Hj Hf' Hk' Hj' Hn Hd.
    rewrite Ha, Hq.
    unfold quote_branch. step. rewrite Hu. step. rewrite Hf, Hk. step.
    rewrite Hj. step. rewrite Hf', Hk'. step. rewrite Hj'.
    unfold quote_result. step.
    rewrite (js_get_defined d "swapTransaction" Hn), Hd. reflexivity.
  - destruct s as [c k q b]. unfold fetchSwapTransaction.
    intros r d Ha Hq Hf Hk Hj Hn H1 H2 H3. rewrite Ha, Hq.
    unfold legacy_branch. step. rewrite Hf, Hk. step. rewrite Hj.
    unfold legacy_result. step.
    rewrite (js_get_defined d "transaction" Hn), H1.
    rewrite (js_get_defined d "swapTransaction" Hn), H2.
    rewrite (js_get_defined d "tx" Hn), H3. reflexivity.
  - intros v H. apply fetch_returns_truthy in H.
    split; [exact H|].
    split; [now apply truthy_not_undefined | now apply truthy_not_empty].
Qed.

(** C5.  In the legacy branch, a 2xx answer whose body is a well-formed
    JSON object makes [fetchSwapTransaction] send its one POST and return,
    as it stands, the value of the first field present among
    [transaction], [swapTransaction] and [tx], in that order. *)
Theorem legacy_first_present rev ep params pk s r props v :
  is_aggregator rev ep = false ->
  is_quote ep = false ->
  fetch (mkRequest POST ep json_headers (JSON_stringify params)) = Ok r ->
  ok r = true ->
  JSON_parse (text r) = Some (JObj props) ->
  well_formed_legacy props ->
  first_present ["transaction"; "swapTransaction"; "tx"] props = Some v ->
  fetchSwapTransaction rev ep params pk s =
    (mkState (clock s) (console s)
       (requests s ++
        [mkRequest POST ep json_headers (JSON_stringify params)])
       (broadcasts s),
     Ok v).
Proof.
  intros Ha Hq Hf Hk Hj (Wt & Ws & Wx) Hv. destruct s as [c k q b].
  unfold fetchSwapTransaction. rewrite Ha, Hq.
  unfold legacy_branch, legacy_request. step. rewrite Hf, Hk. step.
  rewrite Hj. unfold legacy_result. step.
  unfold absent_or_text in *. cbn [js_get first_present] in *.
  destruct (lookup "transaction" props) as [t|].
  { destruct t; try contradiction.
    rewrite truthy_text by assumption. congruence. }
  cbn [truthy].
  destruct (lookup "swapTransaction" props) as [t|].
  { destruct t; try contradiction.
    rewrite truthy_text by assumption. congruence. }
  cbn [truthy].
  destruct (lookup "tx" props) as [t|]; [|discriminate].
  destruct t; try contradiction.
  rewrite truthy_text by assumption. congruence.
Qed.

End FetchResults.

(** A legacy provider answers 200 with [{foo: 1}]. *)
Lemma fetch_unrecognized_body_fails_witness :
  let P := answering 200 "OK" body_foo (Some (JObj [("foo", JNum 1)])) in
  snd (fetchSwapTransaction JsonRpc "https://swap.example/api"
         (demo_params (JNum 25)) demo_payer idle) =
    Throw (Error "Invalid response format from swap endpoint").
Proof.
  intros P.
  apply (proj1 (proj2 (proj2
           (fetch_unrecognized_body_fails (P := P) JsonRpc
              "https://swap.example/api" (demo_params (JNum 25)) demo_payer
              idle)))
           (mkResponse 200 "OK" body_foo) (JObj [("foo", JNum 1)]));
    vm_compute; reflexivity.
Defined.

(** C4 as stated fails.  Two legacy providers answer 200 with bodies of
    different shapes, [{foo: 1}] and [{detail: 'boom'}]: the error is the
    same fixed text for both and names neither shape. *)
Lemma fetch_error_ignores_shape :
  let P1 := answering 200 "OK" body_foo (Some (JObj [("foo", JNum 1)])) in
  let P2 :=
    answering 200 "OK" body_detail (Some (JObj [("detail", JStr "boom")])) in
  let message := "Invalid response format from swap endpoint" in
  let outcome (P : Platform) :=
    snd (fetchSwapTransaction JsonRpc "https://swap.example/api"
           (demo_params (JNum 25)) demo_payer idle) in
  body_foo <> body_detail
  /\ outcome P1 = Throw (Error message)
  /\ outcome P2 = Throw (Error message)
  /\ includes "foo" message = false
  /\ includes "detail" message = false.
Proof.
  intros P1 P2 message outcome.
  split; [discriminate|]. repeat split; vm_compute; reflexivity.
Qed.

(** The specification's end-to-end example: a legacy provider answers
    [{tx: 'AQID'}] and the fetch returns ['AQID']. *)
Lemma legacy_first_present_witness :
  let P := answering 200 "OK" body_tx (Some (JObj [("tx", JStr "AQID")])) in
  fetchSwapTransaction JsonRpc "https://swap.example/api"
    (demo_params (JNum 25)) demo_payer idle =
    (mkState 0 []
       [mkRequest POST "https://swap.example/api" json_headers
          (stringify (demo_params (JNum 25)))]
       [],
     Ok (JStr "AQID")).
Proof.
  intros P.
  apply (legacy_first_present (P := P) JsonRpc "https://swap.example/api"
           (demo_params (JNum 25)) demo_payer idle
           (mkResponse 200 "OK" body_tx) [("tx", JStr "AQID")]).
  - vm_compute. reflexivity.
  - vm_compute. reflexivity.
  - reflexivity.
  - reflexivity.
  - vm_compute. reflexivity.
  - repeat split; cbv; try exact I. discriminate.
  - reflexivity.
Defined.

(** ** The default slippage *)

(** The two query strings written out: the names are fixed texts, the
    values go through the encoder. *)
Lemma aggregator_query a b c d e :
  URLSearchParams_toString
    [("tokenIn", a); ("tokenOut", b); ("amount", c); ("sender", d);
     ("slippage", e)] =
  "tokenIn=" ++ urlencode a ++ "&tokenOut=" ++ urlencode b ++ "&amount="
  ++ urlencode c ++ "&sender=" ++ urlencode d ++ "&slippage=" ++ urlencode e.
Proof.
  unfold URLSearchParams_toString. cbn [map join fst snd].
  change (urlencode "tokenIn") with "tokenIn".
  change (urlencode "tokenOut") with "tokenOut".
  change (urlencode "amount") with "amount".
  change (urlencode "sender") with "sender".
  change (urlencode "slippage") with "slippage".
  rewrite !append_assoc. reflexivity.
Qed.

Lemma quote_query a b c e :
  URLSearchParams_toString
    [("inputMint", a); ("outputMint", b); ("amount", c);
     ("slippageBps", e)] =
  "inputMint=" ++ urlencode a ++ "&outputMint=" ++ urlencode b ++ "&amount="
  ++ urlencode c ++ "&slippageBps=" ++ urlencode e.
Proof.
  unfold URLSearchParams_toString. cbn [map join fst snd].
  change (urlencode "inputMint") with "inputMint".
  change (urlencode "outputMint") with "outputMint".
  change (urlencode "amount") with "amount".
  change (urlencode "slippageBps") with "slippageBps".
  rewrite !append_assoc. reflexivity.
Qed.

(** The URLs of the two GETs, for swap parameters that can be printed:
    [swapParams] is given, the two mints convert to strings and the amount
    and the slippage have a [toString]. *)
Lemma aggregator_url_built ep params pk tokenIn tokenOut amount slippage :
  nullish params = false ->
  ToString (js_get_opt params "inputMint") = Some tokenIn ->
  ToString (js_get_opt params "outputMint") = Some tokenOut ->
  toString_method (js_get_opt params "amount") = Some amount ->
  toString_method (js_or (js_get_opt params "slippageBps") (JNum 50)) =
    Some slippage ->
  aggregator_url ep params pk =
    Some (ep ++ "?tokenIn=" ++ urlencode tokenIn ++ "&tokenOut="
          ++ urlencode tokenOut ++ "&amount=" ++ urlencode amount
          ++ "&sender=" ++ urlencode pk ++ "&slippage=" ++ urlencode slippage).
Proof.
  intros N I O A S. unfold aggregator_url. read_fields params N.
  rewrite A, S, I, O, aggregator_query. reflexivity.
Qed.

Lemma quote_url_built ep params inputMint outputMint amount slippage :
  nullish params = false ->
  ToString (js_get_opt params "inputMint") = Some inputMint ->
  ToString (js_get_opt params "outputMint") = Some outputMint ->
  toString_method (js_get_opt params "amount") = Some amount ->
  toString_method (js_or (js_get_opt params "slippageBps") (JNum 50)) =
    Some slippage ->
  quote_url ep params =
    Some (ep ++ "?inputMint=" ++ urlencode inputMint ++ "&outputMint="
          ++ urlencode outputMint ++ "&amount=" ++ urlencode amount
          ++ "&slippageBps=" ++ urlencode slippage).
Proof.
  intros N I O A S. unfold quote_url. read_fields params N. cbv zeta.
  rewrite A, S, I, O, quote_query. reflexivity.
Qed.

Section Slippage.
Context {P : Platform}.

(** With an aggregator marker and a URL that can be built, the one request
    of [fetchSwapTransaction] is the GET of that URL. *)
Lemma aggregator_sends rev ep params pk s u :
  is_aggregator rev ep = true ->
  aggregator_url ep params pk = Some u ->
  issued (fetchSwapTransaction rev ep params pk) s =
    [mkRequest GET u json_headers None].
Proof.
  intros A U. unfold fetchSwapTransaction. rewrite A.
  rewrite rethrown_requests by reflexivity.
  rewrite aggregator_branch_requests, U. reflexivity.
Qed.

(** With a quote marker only and a URL that can be built, the first
    request is the bare GET of that URL, and any other is a POST. *)
Lemma quote_sends rev ep params pk s u :
  is_aggregator rev ep = false ->
  is_quote ep = true ->
  quote_url ep params = Some u ->
  exists rest,
    issued (fetchSwapTransaction rev ep params pk) s =
      mkRequest GET u [] None :: rest
    /\ forall q, In q rest -> method q = POST.
Proof.
  intros A Q U. unfold fetchSwapTransaction. rewrite A, Q.
  rewrite rethrown_requests by reflexivity.
  rewrite quote_branch_requests, U.
  eexists. split; [reflexivity|].
  destruct (fetch _) as [r|e]; [|intros q []].
  destruct (negb (ok r)); [intros q []|].
  destruct (JSON_parse (text r)); [|intros q []].
  intros q [<-|[]]. reflexivity.
Qed.

(** C10.  Swap parameters that can be printed (their numbers safe
    integers) and whose [slippageBps] is falsy (missing, [null], [false],
    the empty string, or an explicit 0):
    on an aggregator endpoint the one request that goes out is the GET
    whose query ends in [slippage=50]; on a quote endpoint the first
    request that goes out is the GET whose query ends in [slippageBps=50],
    and whatever follows it is a POST. *)
Theorem falsy_slippage_becomes_50 rev ep params pk s inputMint outputMint
  amount :
  truthy (js_get_opt params "slippageBps") = false ->
  nullish params = false ->
  safe params = true ->
  ToString (js_get_opt params "inputMint") = Some inputMint ->
  ToString (js_get_opt params "outputMint") = Some outputMint ->
  toString_method (js_get_opt params "amount") = Some amount ->
  let sent := issued (fetchSwapTransaction rev ep params pk) s in
  (is_aggregator rev ep = true ->
   sent =
     [mkRequest GET
        (ep ++ "?tokenIn=" ++ urlencode inputMint ++ "&tokenOut="
         ++ urlencode outputMint ++ "&amount=" ++ urlencode amount
         ++ "&sender=" ++ urlencode pk ++ "&slippage=50")
        json_headers None])
  /\ (is_aggregator rev ep = false ->
      is_quote ep = true ->
      exists rest,
        sent =
          mkRequest GET
            (ep ++ "?inputMint=" ++ urlencode inputMint ++ "&outputMint="
             ++ urlencode outputMint ++ "&amount=" ++ urlencode amount
             ++ "&slippageBps=50")
            [] None :: rest
        /\ forall q, In q rest -> method q = POST).
Proof.
  intros F N _ I O A sent. subst sent.
  assert (S : toString_method
                (js_or (js_get_opt params "slippageBps") (JNum 50)) =
              Some "50").
  { rewrite js_or_falsy by exact F. reflexivity. }
  split.
  - intros G. apply aggregator_sends; [exact G|].
    apply (aggregator_url_built ep params pk _ _ _ "50" N I O A S).
  - intros G Q. apply quote_sends; [exact G | exact Q |].
    apply (quote_url_built ep params _ _ _ "50" N I O A S).
Qed.

End Slippage.

(** A caller asks for a slippage of 0 basis points: the aggregator is
    asked for 50, and so is the quote provider. *)
Lemma falsy_slippage_becomes_50_witness :
  let P := answering 200 "OK" body_tx (Some (JObj [("tx", JStr "AQID")])) in
  issued (P := P)
    (fetchSwapTransaction JsonRpc "http://localhost:4000/swap"
       (demo_params (JNum 0)) "payer") idle =
    [mkRequest GET
       "http://localhost:4000/swap?tokenIn=So11111111111111111111111111111111111111112&tokenOut=EPjFWdd5AufqSSqeM2qN1xzybapC8G4wEGGkZwyTDt1v&amount=1000000000&sender=payer&slippage=50"
       json_headers None]
  /\ exists rest,
       issued (P := quote_provider)
         (fetchSwapTransaction JsonRpc "https://quote-api.jup.ag/v6/quote"
            (demo_params (JNum 0)) "payer") idle =
         mkRequest GET
           "https://quote-api.jup.ag/v6/quote?inputMint=So11111111111111111111111111111111111111112&outputMint=EPjFWdd5AufqSSqeM2qN1xzybapC8G4wEGGkZwyTDt1v&amount=1000000000&slippageBps=50"
           [] None :: rest
       /\ forall q, In q rest -> method q = POST.
Proof.
  intros P. split.
  - refine (eq_trans
              (proj1
                 (falsy_slippage_becomes_50 (P := P) JsonRpc
                    "http://localhost:4000/swap" (demo_params (JNum 0))
                    "payer" idle
                    "So11111111111111111111111111111111111111112"
                    "EPjFWdd5AufqSSqeM2qN1xzybapC8G4wEGGkZwyTDt1v"
                    "1000000000" _ _ _ _ _ _) _) _);
      vm_compute; reflexivity.
  - destruct (proj2
                (falsy_slippage_becomes_50 (P := quote_provider) JsonRpc
                   "https://quote-api.jup.ag/v6/quote" (demo_params (JNum 0))
                   "payer" idle
                   "So11111111111111111111111111111111111111112"
                   "EPjFWdd5AufqSSqeM2qN1xzybapC8G4wEGGkZwyTDt1v"
                   "1000000000" eq_refl eq_refl eq_refl eq_refl eq_refl
                   ltac:(vm_compute; reflexivity))
                ltac:(vm_compute; reflexivity)
                ltac:(vm_compute; reflexivity)) as (rest & E & M).
    exists rest. split; [|exact M].
    refine (eq_trans E _). f_equal.
Defined.

(** ** Truthiness of the probes *)

(** One probe of a body and of the same body without the field [k]: the
    field read is the same on both sides, or it is the empty string on one
    and [undefined] on the other. *)
Ltac probe R H k' :=
  destruct (R k' H) as [->|[-> ->]];
  [ match goal with
    | |- context [truthy ?x] => destruct (truthy x); [reflexivity|]
    end
  | cbn [truthy String.eqb]; step ].

Section EmptyFields.
Context {P : Platform}.

(** Whatever the JSON-RPC [executeSwapWithOSlot] returns is truthy. *)
Lemma relay_returns_truthy tx conn sign ep s v :
  snd (executeSwapWithOSlot JsonRpc tx conn sign ep s) = Ok v ->
  truthy v = true.
Proof.
  destruct s as [c k q b].
  unfold executeSwapWithOSlot, executeSwapWithOSlot_jsonrpc, jsonrpc_try,
    rethrow_timed, relay_failure, relay_result.
  step.
  repeat fork; intros [= <-]; congruence.
Qed.


(** A field holding the empty string reads as falsy, and so does the
    same field once removed; every other field reads the same. *)
Lemma probe_remove_empty k props k' :
  lookup k props = Some (JStr EmptyString) ->
  match lookup k' (remove_key k props) with
  | Some w => w
  | None => JUndefined
  end = match lookup k' props with Some w => w | None => JUndefined end
  \/ (match lookup k' props with Some w => w | None => JUndefined end
      = JStr EmptyString
      /\ match lookup k' (remove_key k props) with
         | Some w => w
         | None => JUndefined
         end = JUndefined).
Proof.
  intros H. destruct (string_dec k' k) as [->|N].
  - right. now rewrite H, lookup_remove_key_same.
  - left. now rewrite lookup_remove_key_other.
Qed.

(** C9, amended.  Every probe of a response field is a truthiness test.
    On a body in which a field holds the empty string, the normalization
    of a relay answer and the result statements of the legacy, quote and
    aggregator branches (for a top-level field and for a field of [data]),
    and the message extraction of the non-200 block (for a top-level field
    and for a field of [error]), do exactly what they do on the same body
    without that field.  Neither [fetchSwapTransaction] nor the JSON-RPC
    [executeSwapWithOSlot] ever returns the empty string.  At the probe of
    [error.message] in a 200 answer a falsy message, the empty string
    included, is passed over as a missing one is; what is thrown then
    ends in the JSON text of the [error] object as it was received. *)
Theorem empty_string_field_is_absent :
  (forall k props,
      lookup k props = Some (JStr EmptyString) ->
      let before := JObj props in
      let after := JObj (remove_key k props) in
      (forall responseTime totalTime s,
          relay_result before responseTime totalTime s =
          relay_result after responseTime totalTime s)
      /\ (forall s, legacy_result before s = legacy_result after s)
      /\ (forall s, quote_result before s = quote_result after s)
      /\ (forall s, aggregator_result before s = aggregator_result after s)
      /\ (forall body body' s,
             lookup "data" body = Some before ->
             lookup "data" body' = Some after ->
             aggregator_result (JObj body) s =
             aggregator_result (JObj body') s)
      /\ (forall status_code errorText errorText',
             JSON_parse errorText = Some before ->
             JSON_parse errorText' = Some after ->
             relay_error_message status_code errorText =
             relay_error_message status_code errorText')
      /\ (forall status_code errorText errorText' body body',
             JSON_parse errorText = Some (JObj body) ->
             JSON_parse errorText' = Some (JObj body') ->
             lookup "error" body = Some before ->
             lookup "error" body' = Some after ->
             relay_error_message status_code errorText =
             relay_error_message status_code errorText'))
  /\ (forall rev ep params pk s v,
         snd (fetchSwapTransaction rev ep params pk s) = Ok v ->
         v <> JStr EmptyString)
  /\ (forall tx conn sign ep s v,
         snd (executeSwapWithOSlot JsonRpc tx conn sign ep s) = Ok v ->
         v <> JStr EmptyString)
  /\ (forall body error responseTime totalTime s,
         truthy (js_get_opt (JObj body) "result") = false ->
         js_get_opt (JObj body) "error" = JObj error ->
         truthy (js_get_opt (JObj error) "message") = false ->
         snd (relay_result (JObj body) responseTime totalTime s) =
           Throw (Error ("0slot error: "
                         ++ match JSON_stringify (JObj error) with
                            | Some shown => shown
                            | None => "undefined"
                            end))).
Proof.
  split; [|split; [|split]].
  - intros k props H before after.
    pose proof (probe_remove_empty k props) as R.
    split; [|split; [|split; [|split; [|split; [|split]]]]].
    + intros rt tt [c l q b]. subst before after. unfold relay_result.
      cbn [js_get]. step.
      probe R H "result"; probe R H "error"; probe R H "signature";
        probe R H "txid"; probe R H "txSignature"; reflexivity.
    + intros [c l q b]. subst before after. unfold legacy_result.
      cbn [js_get]. step.
      probe R H "transaction"; probe R H "swapTransaction"; probe R H "tx";
        reflexivity.
    + intros [c l q b]. subst before after. unfold quote_result.
      cbn [js_get]. step.
      probe R H "swapTransaction"; reflexivity.
    + intros [c l q b]. subst before after. unfold aggregator_result.
      cbn [js_get]. step.
      probe R H "data"; reflexivity.
    + intros body body' [c l q b] B B'. subst before after.
      unfold aggregator_result. step. cbn [js_get]. rewrite B, B'. step.
      cbn [truthy js_get]. step.
      destruct (R "swapData" H) as [->|[-> ->]]; step.
      * destruct (truthy _); [|reflexivity].
        destruct (R "quote" H) as [->|[-> ->]]; step; reflexivity.
      * cbn [truthy String.eqb]. step. reflexivity.
    + intros code t t' T T'. subst before after.
      unfold relay_error_message, js_get_opt. rewrite T, T'.
      cbn [js_get]. cbv zeta.
      probe R H "error"; probe R H "message"; reflexivity.
    + intros code t t' body body' T T' B B'. subst before after.
      unfold relay_error_message, js_get_opt. rewrite T, T'.
      cbn [js_get]. rewrite B, B'. cbv zeta. cbn [truthy js_get].
      unfold js_or.
      destruct (R "message" H) as [->|[-> ->]];
        destruct (R "code" H) as [->|[-> ->]];
        cbn [truthy String.eqb negb]; reflexivity.
  - intros rev ep params pk s v H.
    now apply truthy_not_empty, (fetch_returns_truthy rev ep params pk s).
  - intros tx conn sign ep s v H.
    now apply truthy_not_empty, (relay_returns_truthy tx conn sign ep s).
  - intros body error rt tt [c l q b] R E M.
    unfold relay_result. step.
    rewrite !(js_get_defined (JObj body)) by reflexivity.
    rewrite R. step. rewrite E. cbn [truthy]. step.
    rewrite (js_or_falsy _ _ M).
    destruct (JSON_stringify (JObj error)); reflexivity.
Qed.

End EmptyFields.

(** A relay body [{result: '', txid: 'sig9'}] is normalized as
    [{txid: 'sig9'}] is; a relay body [{error: {message: ''}}] is rejected
    with the JSON text of its [error]. *)
Lemma empty_string_field_is_absent_witness :
  let P := answering 200 "OK" body_empty_result None in
  relay_result (JObj [("result", JStr EmptyString); ("txid", JStr "sig9")])
    "0.00100" "0.00200" idle =
  relay_result (JObj [("txid", JStr "sig9")]) "0.00100" "0.00200" idle
  /\ snd (relay_result
            (JObj [("error", JObj [("message", JStr EmptyString)])])
            "0.00100" "0.00200" idle) =
       Throw (Error ("0slot error: {" ++ quoted "message" ++ ":"
                     ++ quoted EmptyString ++ "}")).
Proof.
  intros P. split.
  - exact (proj1 (proj1 (empty_string_field_is_absent (P := P)) "result"
                    [("result", JStr EmptyString); ("txid", JStr "sig9")]
                    eq_refl)
             "0.00100" "0.00200" idle).
  - refine (eq_trans
              (proj2 (proj2 (proj2 (empty_string_field_is_absent (P := P))))
                 [("error", JObj [("message", JStr EmptyString)])]
                 [("message", JStr EmptyString)]
                 "0.00100" "0.00200" idle eq_refl eq_refl eq_refl) _).
    vm_compute. reflexivity.
Defined.

(** C9 as stated fails at the probe of [error.message].  The relay answers
    200 with [{error: {message: ''}}]: the empty message is passed over,
    but the error thrown shows it, where the same body without the field,
    [{error: {}}], gives another error text.  The field that is present
    and empty is not treated exactly as if it were absent. *)
Lemma empty_error_message_shows :
  let with_empty := JObj [("error", JObj [("message", JStr EmptyString)])] in
  let without := JObj [("error", JObj [])] in
  let P1 := answering 200 "OK" body_empty_message (Some with_empty) in
  let P2 := answering 200 "OK" body_no_message (Some without) in
  let run1 :=
    executeSwapWithOSlot (P := P1) JsonRpc demo_transaction demo_rpc
      stub_signer demo_relay idle in
  let run2 :=
    executeSwapWithOSlot (P := P2) JsonRpc demo_transaction demo_rpc
      stub_signer demo_relay idle in
  without =
    JObj [("error",
           JObj (remove_key "message" [("message", JStr EmptyString)]))]
  /\ snd run1 =
       Throw (Error ("0slot error: {" ++ quoted "message" ++ ":"
                     ++ quoted EmptyString ++ "}"))
  /\ snd run2 = Throw (Error "0slot error: {}")
  /\ snd run1 <> snd run2.
Proof.
  intros with_empty without P1 P2 run1 run2.
  assert (R1 : snd run1 =
               Throw (Error ("0slot error: {" ++ quoted "message" ++ ":"
                             ++ quoted EmptyString ++ "}")))
    by (vm_compute; reflexivity).
  assert (R2 : snd run2 = Throw (Error "0slot error: {}"))
    by (vm_compute; reflexivity).
  split; [reflexivity|]. split; [exact R1|]. split; [exact R2|].
  rewrite R1, R2. vm_compute. discriminate.
Qed.

(** Bodies whose only recognized field is empty: the relay's
    [{result: ''}] is an unrecognized response, the legacy provider's
    [{transaction: ''}] an invalid one. *)
Example empty_fields_fail :
  let relay :=
    answering 200 "OK" body_only_result
      (Some (JObj [("result", JStr EmptyString)])) in
  let provider :=
    answering 200 "OK" body_only_transaction
      (Some (JObj [("transaction", JStr EmptyString)])) in
  snd (executeSwapWithOSlot (P := relay) JsonRpc demo_transaction demo_rpc
         stub_signer demo_relay idle) =
    Throw (Error "Unexpected response format from 0slot endpoint")
  /\ snd (fetchSwapTransaction (P := provider) JsonRpc
            "https://swap.example/api" (demo_params (JNum 25)) demo_payer
            idle) =
       Throw (Error "Invalid response format from swap endpoint").
Proof.
  intros relay provider. split; vm_compute; reflexivity.
Qed.

(** * Further properties *)

(** ** The broadcast revision *)

Section BroadcastOutcome.
Context {P : Platform}.

(** X1.  Once the transaction is prepared and the connection to the
    endpoint is made, the broadcast revision calls [sendRawTransaction]
    exactly once, on the signed bytes, with [skipPreflight: true] and
    [maxRetries: 0], and sends no HTTP request of its own.  What the call
    returns is returned unchanged (a [TypeError] if it cannot be printed
    for the log); what the call throws is thrown unchanged. *)
Theorem broadcast_outcome tx conn sign ep s bytes c :
  prepared tx sign bytes ->
  new_Connection ep "confirmed" = Ok c ->
  let run := executeSwapWithOSlot Broadcast tx conn sign ep s in
  snd run =
    match sendRawTransaction c bytes (mkSendOptions true 0) with
    | Ok signature =>
        match ToString signature with
        | Some _ => Ok signature
        | None => Throw TypeError
        end
    | Throw e => Throw e
    end
  /\ broadcasts (fst run) =
       (broadcasts s ++ [(c, bytes, mkSendOptions true 0)])%list
  /\ requests (fst run) = requests s.
Proof.
  intros (buffer & vt & signed & H1 & H2 & H3 & H4) Hc run. subst run.
  destruct s as [k l q b].
  unfold executeSwapWithOSlot, executeSwapWithOSlot_broadcast, broadcast_try,
    rethrow_timed.
  step. rewrite H1, H2, H3, H4. step. rewrite Hc. step.
  destruct (sendRawTransaction c bytes (mkSendOptions true 0)) as [v|e]; step.
  - destruct (ToString v); step; repeat split; reflexivity.
  - repeat split; reflexivity.
Qed.

(** X2.  In both revisions, when the preparation stops with [e] (the
    transaction does not decode, the wallet refuses to sign, ...), [e] is
    what [executeSwapWithOSlot] throws, and nothing has gone out: no
    request, no broadcast. *)
Theorem failed_preparation_sends_nothing rev tx conn sign ep s e :
  preparation_fails tx sign e ->
  let run := executeSwapWithOSlot rev tx conn sign ep s in
  snd run = Throw e
  /\ requests (fst run) = requests s
  /\ broadcasts (fst run) = broadcasts s.
Proof.
  intros H run. subst run. destruct s as [k l q b].
  destruct rev;
    unfold executeSwapWithOSlot, executeSwapWithOSlot_jsonrpc,
      executeSwapWithOSlot_broadcast, jsonrpc_try, broadcast_try,
      rethrow_timed;
    step;
    (destruct H as [H|(buffer & H1 & [H|(vt & H2 & [H|(signed & H3 & H)])])];
     rewrite ?H1; step; rewrite ?H2; step; rewrite ?H3; step; rewrite H;
     step; repeat split; reflexivity).
Qed.

(** X3.  In the broadcast revision the endpoint is turned into a
    connection only after the wallet has signed: when [new Connection]
    throws [e], [e] is thrown and nothing is broadcast, although the
    preparation had succeeded. *)
Theorem failed_connection_broadcasts_nothing tx conn sign ep s bytes e :
  prepared tx sign bytes ->
  new_Connection ep "confirmed" = Throw e ->
  let run := executeSwapWithOSlot Broadcast tx conn sign ep s in
  snd run = Throw e
  /\ broadcasts (fst run) = broadcasts s
  /\ requests (fst run) = requests s.
Proof.
  intros (buffer & vt & signed & H1 & H2 & H3 & H4) Hc run. subst run.
  destruct s as [k l q b].
  unfold executeSwapWithOSlot, executeSwapWithOSlot_broadcast, broadcast_try,
    rethrow_timed.
  step. rewrite H1, H2, H3, H4. step. rewrite Hc. step.
  repeat split; reflexivity.
Qed.

End BroadcastOutcome.

(** The stub signer's transaction is broadcast once and the identifier of
    the broadcast returned. *)
Lemma broadcast_outcome_witness :
  let P := answering 200 "OK" body_txid None in
  let run :=
    executeSwapWithOSlot Broadcast demo_transaction demo_rpc stub_signer
      demo_relay idle in
  snd run = Ok demo_signature
  /\ broadcasts (fst run) =
       [(demo_relay, base64_decode "AQID/w==", mkSendOptions true 0)]
  /\ requests (fst run) = [].
Proof.
  intros P.
  apply (broadcast_outcome (P := P) demo_transaction demo_rpc stub_signer
           demo_relay idle (base64_decode "AQID/w==") demo_relay).
  - exists (base64_decode "AQID"), (base64_decode "AQID").
    eexists. repeat split; vm_compute; reflexivity.
  - reflexivity.
Defined.

(** A wallet that refuses: the refusal is thrown and nothing goes out, in
    the JSON-RPC revision here. *)
Lemma failed_preparation_sends_nothing_witness :
  let P := answering 200 "OK" body_txid None in
  let refusal := Rejection (JStr "User rejected the request.") in
  let run :=
    executeSwapWithOSlot JsonRpc demo_transaction demo_rpc
      (fun _ => Throw refusal) demo_relay idle in
  snd run = Throw refusal
  /\ requests (fst run) = []
  /\ broadcasts (fst run) = [].
Proof.
  intros P refusal.
  apply (failed_preparation_sends_nothing (P := P) JsonRpc demo_transaction
           demo_rpc (fun _ => Throw refusal) demo_relay idle refusal).
  right. exists (base64_decode "AQID"). split; [reflexivity|].
  right. exists (base64_decode "AQID"). split; [reflexivity|].
  left. reflexivity.
Defined.

(** An endpoint that is no URL: the wallet has signed, nothing is
    broadcast. *)
Lemma failed_connection_broadcasts_nothing_witness :
  let P := checking_endpoint (answering 200 "OK" body_txid None) in
  let run :=
    executeSwapWithOSlot Broadcast demo_transaction demo_rpc stub_signer
      "de1.0slot.trade" idle in
  snd run =
    Throw (Error "Endpoint URL must start with `http:` or `https:`.")
  /\ broadcasts (fst run) = []
  /\ requests (fst run) = [].
Proof.
  intros P.
  apply (failed_connection_broadcasts_nothing (P := P) demo_transaction
           demo_rpc stub_signer "de1.0slot.trade" idle
           (base64_decode "AQID/w==")).
  - exists (base64_decode "AQID"), (base64_decode "AQID").
    eexists. repeat split; vm_compute; reflexivity.
  - reflexivity.
Defined.

(** ** Bodies that cannot be read *)

Section UnreadableBodies.
Context {P : Platform}.

(** X4.  A 200 answer of the relay whose body is not JSON makes the
    JSON-RPC revision throw the [SyntaxError] of [response.json()], and a
    body that is the JSON [null] makes it throw the [TypeError] of reading
    [result] off [null]: neither is reported as an unexpected response
    format. *)
Theorem relay_200_unreadable_body tx conn sign ep s r :
  relay_answers tx sign ep r ->
  status r = 200 ->
  let outcome := snd (executeSwapWithOSlot JsonRpc tx conn sign ep s) in
  (JSON_parse (text r) = None -> outcome = Throw SyntaxError)
  /\ (forall d,
         JSON_parse (text r) = Some d ->
         nullish d = true ->
         outcome = Throw TypeError).
Proof.
  intros Hr Hs outcome. subst outcome.
  reach_relay Hr. rewrite Hs. cbn [Z.eqb Pos.eqb negb]. step.
  split.
  - intros ->. reflexivity.
  - intros d -> Hn. unfold relay_result. step.
    destruct d; try discriminate Hn; reflexivity.
Qed.

(** X5.  The same holds of [fetchSwapTransaction] at the body it reads the
    transaction from, in each branch: a 2xx answer that is not JSON throws
    [SyntaxError], one that is the JSON [null] throws [TypeError], not the
    invalid-response error of the branch.  An unreadable quote stops the
    quote branch before its second request. *)
Theorem fetch_unreadable_body rev ep params pk s :
  let outcome := snd (fetchSwapTransaction rev ep params pk s) in
  let unreadable (r : Response) :=
    match JSON_parse (text r) with
    | None => outcome = Throw SyntaxError
    | Some d => nullish d = true -> outcome = Throw TypeError
    end in
  (forall u r,
      is_aggregator rev ep = true ->
      aggregator_url ep params pk = Some u ->
      fetch (mkRequest GET u json_headers None) = Ok r ->
      ok r = true ->
      unreadable r)
  /\ (forall u r,
         is_aggregator rev ep = false ->
         is_quote ep = true ->
         quote_url ep params = Some u ->
         fetch (mkRequest GET u [] None) = Ok r ->
         ok r = true ->
         JSON_parse (text r) = None ->
         outcome = Throw SyntaxError
         /\ issued (fetchSwapTransaction rev ep params pk) s =
              [mkRequest GET u [] None])
  /\ (forall u r quoteData r',
         is_aggregator rev ep = false ->
         is_quote ep = true ->
         quote_url ep params = Some u ->
         fetch (mkRequest GET u [] None) = Ok r ->
         ok r = true ->
         JSON_parse (text r) = Some quoteData ->
         fetch (swap_request quoteData pk) = Ok r' ->
         ok r' = true ->
         unreadable r')
  /\ (forall r,
         is_aggregator rev ep = false ->
         is_quote ep = false ->
         fetch (legacy_request ep params) = Ok r ->
         ok r = true ->
         unreadable r).
Proof.
  intros outcome unreadable. subst outcome unreadable.
  split; [|split; [|split]].
  - destruct s as [c k q b]. unfold fetchSwapTransaction.
    intros u r Ha Hu Hf Hk. rewrite Ha.
    unfold aggregator_branch. step. rewrite Hu. step. rewrite Hf, Hk. step.
    destruct (JSON_parse (text r)) as [d|]; [|reflexivity].
    intros Hn. unfold aggregator_result. step.
    destruct d; try discriminate Hn; reflexivity.
  - intros u r Ha Hq Hu Hf Hk Hj. split.
    + destruct s as [c k q b]. unfold fetchSwapTransaction. rewrite Ha, Hq.
      unfold quote_branch. step. rewrite Hu. step. rewrite Hf, Hk. step.
      rewrite Hj. reflexivity.
    + unfold fetchSwapTransaction. rewrite Ha, Hq.
      rewrite rethrown_requests by reflexivity.
      rewrite quote_branch_requests, Hu, Hf, Hk, Hj. reflexivity.
  - destruct s as [c k q b]. unfold fetchSwapTransaction.
    intros u r quoteData r' Ha Hq Hu Hf Hk Hj Hf' Hk'. rewrite Ha, Hq.
    unfold quote_branch. step. rewrite Hu. step. rewrite Hf, Hk. step.
    rewrite Hj. step. rewrite Hf', Hk'. step.
    destruct (JSON_parse (text r')) as [d|]; [|reflexivity].
    intros Hn. unfold quote_result. step.
    destruct d; try discriminate Hn; reflexivity.
  - destruct s as [c k q b]. unfold fetchSwapTransaction.
    intros r Ha Hq Hf Hk. rewrite Ha, Hq.
    unfold legacy_branch. step. rewrite Hf, Hk. step.
    destruct (JSON_parse (text r)) as [d|]; [|reflexivity].
    intros Hn. unfold legacy_result. step.
    destruct d; try discriminate Hn; reflexivity.
Qed.

End UnreadableBodies.

(** The relay answers 200 with the text [null]. *)
Lemma relay_200_unreadable_body_witness :
  let P := answering 200 "OK" body_null (Some JNull) in
  snd (executeSwapWithOSlot JsonRpc demo_transaction demo_rpc stub_signer
         demo_relay idle) = Throw TypeError.
Proof.
  intros P.
  apply (proj2
           (relay_200_unreadable_body (P := P) demo_transaction demo_rpc
              stub_signer demo_relay idle (mkResponse 200 "OK" body_null)
              ltac:(exists (base64_decode "AQID"), (base64_decode "AQID");
                    eexists; eexists; eexists;
                    repeat split; vm_compute; reflexivity)
              eq_refl)
           JNull); reflexivity.
Defined.

(** A legacy provider answers 200 with a page of HTML. *)
Lemma fetch_unreadable_body_witness :
  let P := answering 200 "OK" "<html>Bad gateway</html>" None in
  snd (fetchSwapTransaction JsonRpc "https://swap.example/api"
         (demo_params (JNum 25)) demo_payer idle) = Throw SyntaxError.
Proof.
  intros P.
  apply (proj2 (proj2 (proj2
           (fetch_unreadable_body (P := P) JsonRpc "https://swap.example/api"
              (demo_params (JNum 25)) demo_payer idle)))
           (mkResponse 200 "OK" "<html>Bad gateway</html>"));
    vm_compute; reflexivity.
Defined.

(** ** The footprint of [fetchSwapTransaction] *)

(** Brings the console lines a run has added into the open. *)
Ltac tidy_console :=
  rewrite <- ?app_assoc; cbn [app];
  rewrite ?skipn_length_app, ?skipn_length_all.

(** Every line of a list written out is a [console.log] line. *)
Ltac all_log := repeat (apply Forall_cons; [reflexivity|]); apply Forall_nil.

Section FetchFootprint.
Context {P : Platform}.

(** X6.  [fetchSwapTransaction] never reads the clock and never
    broadcasts; it sends at most one request in the aggregator and legacy
    branches and at most two in the quote branch; and it writes its error
    line to the console exactly when it throws, once, as the last line,
    with the error it throws. *)
Theorem fetch_footprint rev ep params pk s :
  let run := fetchSwapTransaction rev ep params pk in
  clock (fst (run s)) = clock s
  /\ broadcasts (fst (run s)) = broadcasts s
  /\ (List.length (issued run s)
      <= if is_aggregator rev ep then 1
         else if is_quote ep then 2 else 1)%nat
  /\ match snd (run s) with
     | Ok _ => Forall (fun line => fst line = LOG) (logged run s)
     | Throw e =>
         exists before,
           logged run s =
             (before ++
              [(ERROR,
                [AStr "Error fetching swap transaction:"; AExn e])])%list
           /\ Forall (fun line => fst line = LOG) before
     end.
Proof.
  intros run. subst run. destruct s as [c k q b].
  unfold issued, logged, fetchSwapTransaction, aggregator_branch,
    aggregator_result, quote_branch, quote_result, legacy_branch,
    legacy_result.
  destruct (is_aggregator rev ep); [|destruct (is_quote ep)];
    step; repeat fork;
    (split; [reflexivity|]); (split; [reflexivity|]);
    (split; [tidy_requests; cbn [List.length]; lia|]);
    tidy_console;
    first [ all_log
          | exists []; split; [reflexivity | all_log]
          | eexists [_]; split; [reflexivity | all_log]
          | eexists [_; _]; split; [reflexivity | all_log] ].
Qed.

End FetchFootprint.

(** ** The aggregator and quote branches on a good answer *)

(** Only an object has a truthy field. *)
Lemma truthy_field_of_object x k :
  truthy (js_get_opt x k) = true -> exists props, x = JObj props.
Proof.
  unfold js_get_opt. destruct x; simpl; try discriminate. eauto.
Qed.

Section FetchSuccess.
Context {P : Platform}.

(** X7.  In the aggregator branch, a 2xx answer whose JSON body has a
    truthy [data.swapData] makes [fetchSwapTransaction] return that value
    as it stands, having sent the one GET and logged the URL and the
    [amountOut] and [priceImpact] of [data.quote] (each [undefined] when
    there is no quote). *)
Theorem aggregator_returns_swapData rev ep params pk s u r d :
  is_aggregator rev ep = true ->
  aggregator_url ep params pk = Some u ->
  fetch (mkRequest GET u json_headers None) = Ok r ->
  ok r = true ->
  JSON_parse (text r) = Some d ->
  truthy (js_get_opt (js_get_opt d "data") "swapData") = true ->
  let data := js_get_opt d "data" in
  fetchSwapTransaction rev ep params pk s =
    (mkState (clock s)
       (console s ++
        [(LOG, [AStr "Fetching swap from:"; AStr u]);
         (LOG,
          [AStr "Swap quote info:";
           AVal (JObj
                   [("amountOut",
                     js_get_opt (js_get_opt data "quote") "amountOut");
                    ("priceImpact",
                     js_get_opt (js_get_opt data "quote") "priceImpact")])])])
       (requests s ++ [mkRequest GET u json_headers None])
       (broadcasts s),
     Ok (js_get_opt data "swapData")).
Proof.
  intros Ha Hu Hf Hk Hj Ht data. subst data.
  destruct (truthy_field_of_object _ _ Ht) as (dprops & Ed).
  destruct (truthy_field_of_object d "data") as (props & ->).
  { rewrite Ed. reflexivity. }
  destruct s as [c k q b].
  unfold fetchSwapTransaction. rewrite Ha.
  unfold aggregator_branch. step. rewrite Hu. step. rewrite Hf, Hk. step.
  rewrite Hj. step. unfold aggregator_result. step.
  rewrite (js_get_defined (JObj props) "data" eq_refl). rewrite Ed in *.
  cbn [truthy]. step.
  rewrite (js_get_defined (JObj dprops) "swapData" eq_refl), Ht. step.
  rewrite (js_get_defined (JObj dprops) "quote" eq_refl). step.
  rewrite <- app_assoc. reflexivity.
Qed.

(** X8.  In the quote branch, when the quote GET is answered 2xx with a
    JSON body and the swap-construction POST is answered 2xx with a JSON
    body that has a truthy [swapTransaction], [fetchSwapTransaction]
    returns that value as it stands.  It has sent two requests: the bare
    GET, then the POST to the fixed swap URL whose body is the JSON text of
    the quote as received, the payer's key and the three fixed options.
    It has logged nothing. *)
Theorem quote_returns_swapTransaction rev ep params pk s u r quoteData r' d :
  is_aggregator rev ep = false ->
  is_quote ep = true ->
  quote_url ep params = Some u ->
  fetch (mkRequest GET u [] None) = Ok r ->
  ok r = true ->
  JSON_parse (text r) = Some quoteData ->
  let swap_post :=
    mkRequest POST "https://quote-api.jup.ag/v6/swap"
      [("Content-Type", "application/json")]
      (JSON_stringify
         (JObj [("quoteResponse", quoteData);
                ("userPublicKey", JStr pk);
                ("wrapAndUnwrapSol", JBool true);
                ("dynamicComputeUnitLimit", JBool true);
                ("prioritizationFeeLamports", JStr "auto")])) in
  fetch swap_post = Ok r' ->
  ok r' = true ->
  JSON_parse (text r') = Some d ->
  truthy (js_get_opt d "swapTransaction") = true ->
  fetchSwapTransaction rev ep params pk s =
    (mkState (clock s) (console s)
       (requests s ++ [mkRequest GET u [] None; swap_post])
       (broadcasts s),
     Ok (js_get_opt d "swapTransaction")).
Proof.
  intros Ha Hq Hu Hf Hk Hj swap_post Hf' Hk' Hj' Ht.
  destruct (truthy_field_of_object _ _ Ht) as (props & ->).
  destruct s as [c k q b].
  unfold fetchSwapTransaction. rewrite Ha, Hq.
  unfold quote_branch. step. rewrite Hu. step. rewrite Hf, Hk. step.
  rewrite Hj. step.
  change (swap_request quoteData pk) with swap_post.
  rewrite Hf', Hk'. step. rewrite Hj'. unfold quote_result. step.
  rewrite (js_get_defined (JObj props) "swapTransaction" eq_refl), Ht.
  rewrite <- app_assoc. reflexivity.
Qed.

End FetchSuccess.

(** The aggregator answers [{data: {swapData: 'AQID', quote: {amountOut: 7}}}]. *)
Lemma aggregator_returns_swapData_witness :
  let P := answering 200 "OK" body_aggregator (Some parsed_aggregator) in
  snd (fetchSwapTransaction Broadcast
         "https://metaagg.velvetdao.xyz/api/v1/route/solana/swap"
         (demo_params (JNum 25)) "payer" idle) = Ok (JStr "AQID").
Proof.
  intros P.
  rewrite (aggregator_returns_swapData (P := P) Broadcast
             "https://metaagg.velvetdao.xyz/api/v1/route/solana/swap"
             (demo_params (JNum 25)) "payer" idle
             "https://metaagg.velvetdao.xyz/api/v1/route/solana/swap?tokenIn=So11111111111111111111111111111111111111112&tokenOut=EPjFWdd5AufqSSqeM2qN1xzybapC8G4wEGGkZwyTDt1v&amount=1000000000&sender=payer&slippage=25"
             (mkResponse 200 "OK" body_aggregator) parsed_aggregator);
    try (vm_compute; reflexivity).
Defined.

(** The quote provider answers the quote, then the transaction. *)
Lemma quote_returns_swapTransaction_witness :
  let P := quote_provider in
  let run :=
    fetchSwapTransaction JsonRpc "https://quote-api.jup.ag/v6/quote"
      (demo_params (JNum 25)) "payer" idle in
  snd run = Ok (JStr "AQID")
  /\ map (fun q => (method q, url q)) (requests (fst run)) =
       [(GET,
         "https://quote-api.jup.ag/v6/quote?inputMint=So11111111111111111111111111111111111111112&outputMint=EPjFWdd5AufqSSqeM2qN1xzybapC8G4wEGGkZwyTDt1v&amount=1000000000&slippageBps=25");
        (POST, "https://quote-api.jup.ag/v6/swap")].
Proof.
  intros P run. subst run.
  rewrite (quote_returns_swapTransaction (P := P) JsonRpc
             "https://quote-api.jup.ag/v6/quote" (demo_params (JNum 25))
             "payer" idle
             "https://quote-api.jup.ag/v6/quote?inputMint=So11111111111111111111111111111111111111112&outputMint=EPjFWdd5AufqSSqeM2qN1xzybapC8G4wEGGkZwyTDt1v&amount=1000000000&slippageBps=25"
             (mkResponse 200 "OK" body_quote)
             (JObj [("outAmount", JStr "7")])
             (mkResponse 200 "OK" body_swap)
             (JObj [("swapTransaction", JStr "AQID")]));
    try (vm_compute; reflexivity).
  split; reflexivity.
Defined.

(** ** The query string *)

(** Each query parameter of the aggregator URL is the string form of the
    swap parameter it is read from. *)
Lemma aggregator_url_fields ep params pk u :
  aggregator_url ep params pk = Some u ->
  exists tokenIn tokenOut amount slippage,
    ToString (js_get_opt params "inputMint") = Some tokenIn
    /\ ToString (js_get_opt params "outputMint") = Some tokenOut
    /\ toString_method (js_get_opt params "amount") = Some amount
    /\ toString_method
         (js_or (js_get_opt params "slippageBps") (JNum 50)) = Some slippage
    /\ u = ep ++ "?" ++
           URLSearchParams_toString
             [("tokenIn", tokenIn); ("tokenOut", tokenOut);
              ("amount", amount); ("sender", pk); ("slippage", slippage)].
Proof.
  unfold aggregator_url, js_get_opt.
  destruct (js_get params "inputMint") as [i|]; [|discriminate].
  destruct (js_get params "outputMint") as [o|]; [|discriminate].
  destruct (js_get params "amount") as [a|]; [|discriminate].
  destruct (js_get params "slippageBps") as [b|]; [|discriminate].
  destruct (toString_method a) as [a'|]; [|discriminate].
  destruct (toString_method (js_or b (JNum 50))) as [b'|]; [|discriminate].
  destruct (ToString i) as [i'|]; [|discriminate].
  destruct (ToString o) as [o'|]; [|discriminate].
  intros [= <-]. exists i', o', a', b'. repeat split; reflexivity.
Qed.

Lemma quote_url_fields ep params u :
  quote_url ep params = Some u ->
  exists inputMint outputMint amount slippage,
    ToString (js_get_opt params "inputMint") = Some inputMint
    /\ ToString (js_get_opt params "outputMint") = Some outputMint
    /\ toString_method (js_get_opt params "amount") = Some amount
    /\ toString_method
         (js_or (js_get_opt params "slippageBps") (JNum 50)) = Some slippage
    /\ u = ep ++ "?" ++
           URLSearchParams_toString
             [("inputMint", inputMint); ("outputMint", outputMint);
              ("amount", amount); ("slippageBps", slippage)].
Proof.
  unfold quote_url, js_get_opt.
  destruct (js_get params "inputMint") as [i|]; [|discriminate].
  destruct (js_get params "outputMint") as [o|]; [|discriminate].
  destruct (js_get params "amount") as [a|]; [|discriminate].
  destruct (js_get params "slippageBps") as [b|]; [|discriminate].
  cbv zeta.
  destruct (toString_method a) as [a'|]; [|discriminate].
  destruct (toString_method (js_or b (JNum 50))) as [b'|]; [|discriminate].
  destruct (ToString i) as [i'|]; [|discriminate].
  destruct (ToString o) as [o'|]; [|discriminate].
  intros [= <-]. exists i', o', a', b'. repeat split; reflexivity.
Qed.

Lemma toString_method_nullish v :
  nullish v = true -> toString_method v = None.
Proof. destruct v; simpl; intros H; try discriminate; reflexivity. Qed.

Section QueryParameters.
Context {P : Platform}.

(** X9.  In the aggregator and quote branches a swap without an amount
    (no [swapParams], no [amount], or an [amount] of [null]) is a
    [TypeError], thrown before anything is sent. *)
Theorem missing_amount_sends_nothing rev ep params pk s :
  nullish (js_get_opt params "amount") = true ->
  is_aggregator rev ep = true \/ is_quote ep = true ->
  let run := fetchSwapTransaction rev ep params pk in
  snd (run s) = Throw TypeError /\ issued run s = [].
Proof.
  intros Hn Hb run. subst run.
  assert (A : aggregator_url ep params pk = None).
  { destruct (aggregator_url ep params pk) as [u|] eqn:U; [|reflexivity].
    destruct (aggregator_url_fields _ _ _ _ U) as (i & o & a & b & _ & _ & A & _).
    rewrite toString_method_nullish in A by exact Hn. discriminate. }
  assert (Q : quote_url ep params = None).
  { destruct (quote_url ep params) as [u|] eqn:U; [|reflexivity].
    destruct (quote_url_fields _ _ _ U) as (i & o & a & b & _ & _ & A' & _).
    rewrite toString_method_nullish in A' by exact Hn. discriminate. }
  split.
  - destruct s as [c k q b]. unfold fetchSwapTransaction.
    destruct (is_aggregator rev ep).
    + unfold aggregator_branch. step. rewrite A. reflexivity.
    + destruct Hb as [Hb|Hb]; [discriminate|]. rewrite Hb.
      unfold quote_branch. step. rewrite Q. reflexivity.
  - unfold fetchSwapTransaction.
    rewrite rethrown_requests by reflexivity.
    destruct (is_aggregator rev ep).
    + now rewrite aggregator_branch_requests, A.
    + destruct Hb as [Hb|Hb]; [discriminate|]. rewrite Hb.
      now rewrite quote_branch_requests, Q.
Qed.

End QueryParameters.





(** The digits of a number go through the encoder as they are. *)
Lemma urlencode_digits d :
  urlencode (NilEmpty.string_of_uint d) = NilEmpty.string_of_uint d.
Proof.
  induction d; cbn [NilEmpty.string_of_uint urlencode];
    [reflexivity | rewrite IHd; reflexivity ..].
Qed.

Lemma urlencode_number n : urlencode (number_toString n) = number_toString n.
Proof.
  unfold number_toString, NilZero.string_of_int, NilZero.string_of_uint.
  destruct (Z.to_int n) as [d|d].
  - destruct d; try apply (urlencode_digits (_ _)); reflexivity.
  - cbn [urlencode].
    destruct d; try rewrite (urlencode_digits (_ _)); reflexivity.
Qed.

Section QueryOnTheWire.
Context {P : Platform}.


(** X10.  A missing mint is no error.  Swap parameters that lack
    [inputMint] and can otherwise be printed (their numbers safe
    integers): on an aggregator endpoint
    the one request that goes out is the GET whose query starts with
    [tokenIn=undefined]; on a quote endpoint the first request that goes
    out is the GET whose query starts with [inputMint=undefined]. *)
Theorem missing_mint_sent_as_undefined rev ep params pk s outputMint amount
  slippage :
  nullish params = false ->
  safe params = true ->
  js_get_opt params "inputMint" = JUndefined ->
  ToString (js_get_opt params "outputMint") = Some outputMint ->
  toString_method (js_get_opt params "amount") = Some amount ->
  toString_method (js_or (js_get_opt params "slippageBps") (JNum 50)) =
    Some slippage ->
  let sent := issued (fetchSwapTransaction rev ep params pk) s in
  (is_aggregator rev ep = true ->
   sent =
     [mkRequest GET
        (ep ++ "?tokenIn=undefined&tokenOut=" ++ urlencode outputMint
         ++ "&amount=" ++ urlencode amount ++ "&sender=" ++ urlencode pk
         ++ "&slippage=" ++ urlencode slippage)
        json_headers None])
  /\ (is_aggregator rev ep = false ->
      is_quote ep = true ->
      exists rest,
        sent =
          mkRequest GET
            (ep ++ "?inputMint=undefined&outputMint=" ++ urlencode outputMint
             ++ "&amount=" ++ urlencode amount ++ "&slippageBps="
             ++ urlencode slippage)
            [] None :: rest
        /\ forall q, In q rest -> method q = POST).
Proof.
  intros N _ I O A S sent. subst sent.
  assert (I' : ToString (js_get_opt params "inputMint") = Some "undefined").
  { rewrite I. reflexivity. }
  split.
  - intros G. apply aggregator_sends; [exact G|].
    apply (aggregator_url_built ep params pk _ _ _ _ N I' O A S).
  - intros G Q. apply quote_sends; [exact G | exact Q |].
    apply (quote_url_built ep params _ _ _ _ N I' O A S).
Qed.

(** X11.  Swap parameters that can be printed (their numbers safe
    integers) and whose [slippageBps] is a number other than 0: it goes
    out as it is, whatever its value.  There is no range check, so a
    negative number or one above 10000 is sent, in its decimal digits, as
    the last parameter of the GET (the one request of the aggregator
    branch, the first of the quote branch). *)
Theorem slippage_sent_unchecked rev ep params pk s n inputMint outputMint
  amount :
  js_get_opt params "slippageBps" = JNum n ->
  n <> 0 ->
  safe params = true ->
  ToString (js_get_opt params "inputMint") = Some inputMint ->
  ToString (js_get_opt params "outputMint") = Some outputMint ->
  toString_method (js_get_opt params "amount") = Some amount ->
  let sent := issued (fetchSwapTransaction rev ep params pk) s in
  (is_aggregator rev ep = true ->
   sent =
     [mkRequest GET
        (ep ++ "?tokenIn=" ++ urlencode inputMint ++ "&tokenOut="
         ++ urlencode outputMint ++ "&amount=" ++ urlencode amount
         ++ "&sender=" ++ urlencode pk ++ "&slippage=" ++ number_toString n)
        json_headers None])
  /\ (is_aggregator rev ep = false ->
      is_quote ep = true ->
      exists rest,
        sent =
          mkRequest GET
            (ep ++ "?inputMint=" ++ urlencode inputMint ++ "&outputMint="
             ++ urlencode outputMint ++ "&amount=" ++ urlencode amount
             ++ "&slippageBps=" ++ number_toString n)
            [] None :: rest
        /\ forall q, In q rest -> method q = POST).
Proof.
  intros E Z _ I O A sent. subst sent.
  assert (N : nullish params = false).
  { destruct params; try reflexivity; discriminate E. }
  assert (S : toString_method
                (js_or (js_get_opt params "slippageBps") (JNum 50)) =
              Some (number_toString n)).
  { rewrite E. unfold js_or. simpl truthy.
    destruct (Z.eqb_spec n 0); [contradiction | reflexivity]. }
  split.
  - intros G. rewrite <- (urlencode_number n).
    apply aggregator_sends; [exact G|].
    apply (aggregator_url_built ep params pk _ _ _ _ N I O A S).
  - intros G Q. rewrite <- (urlencode_number n).
    apply quote_sends; [exact G | exact Q |].
    apply (quote_url_built ep params _ _ _ _ N I O A S).
Qed.


End QueryOnTheWire.

(** ** The clock *)

(** X13.  The clock is for the console only.  Run on a platform that
    differs in nothing but its clock (other readings, printed another
    way), [executeSwapWithOSlot] of either revision ends in the same
    outcome, has sent the same requests, made the same broadcasts, read
    the clock as often and written as many console lines. *)
Theorem clock_never_decides (P : Platform) (T : Type) (reading : nat -> T)
  (print : T -> T -> string) rev tx conn sign ep c k q b :
  let run :=
    executeSwapWithOSlot (P := P) rev tx conn sign ep (mkState c k q b) in
  let run' :=
    executeSwapWithOSlot (P := with_clock P T reading print) rev tx conn sign
      ep (mkState (P := with_clock P T reading print) c k q b) in
  snd run' = snd run
  /\ requests (fst run') = requests (fst run)
  /\ broadcasts (fst run') = broadcasts (fst run)
  /\ clock (fst run') = clock (fst run)
  /\ List.length (console (fst run')) = List.length (console (fst run)).
Proof.
  destruct P. intros run run'. subst run run'.
  destruct rev;
    unfold executeSwapWithOSlot, executeSwapWithOSlot_jsonrpc,
      executeSwapWithOSlot_broadcast, jsonrpc_try, broadcast_try,
      rethrow_timed, relay_failure, relay_result, relay_error_message,
      with_clock;
    cbv beta iota zeta
      delta [response_json throw_new_Error bind now console_log
             console_error console_write lift http broadcast orTypeError ret
             throw try_catch clock console requests broadcasts fst snd negb
             Time performance_now toFixed5 JSON_parse JSON_stringify fetch
             VersionedTransaction Buffer_from_base64 deserialize serialize
             Connection new_Connection sendRawTransaction];
    repeat fork;
    rewrite ?length_app; cbn [List.length];
    repeat split; reflexivity.
Qed.

(** ** Fetching, then submitting *)

Section FetchThenSubmit.
Context {P : Platform}.

(** Reading the first present field of a well-formed legacy body. *)
Lemma legacy_result_first_present props v s :
  well_formed_legacy props ->
  first_present ["transaction"; "swapTransaction"; "tx"] props = Some v ->
  legacy_result (JObj props) s = (s, Ok v).
Proof.
  intros (Wt & Ws & Wx) Hv. destruct s as [c k q b].
  unfold legacy_result. step.
  unfold absent_or_text in *. cbn [js_get first_present] in *.
  destruct (lookup "transaction" props) as [t|].
  { destruct t; try contradiction.
    rewrite truthy_text by assumption. congruence. }
  cbn [truthy].
  destruct (lookup "swapTransaction" props) as [t|].
  { destruct t; try contradiction.
    rewrite truthy_text by assumption. congruence. }
  cbn [truthy].
  destruct (lookup "tx" props) as [t|]; [|discriminate].
  destruct t; try contradiction.
  rewrite truthy_text by assumption. congruence.
Qed.

(** X14.  The two operations of the broadcast revision one after the
    other, the second on the value the first returns: a legacy provider
    answers 2xx with a well-formed body, the value [fetchSwapTransaction]
    returns is what [executeSwapWithOSlot] decodes, and the swap ends with
    the identifier of the broadcast, after exactly one request (the POST
    to the provider) and exactly one broadcast (the signed bytes, to the
    relay). *)
Theorem fetch_then_broadcast ep params pk conn sign relay s r props v bytes
  c id shown :
  is_aggregator Broadcast ep = false ->
  is_quote ep = false ->
  fetch (mkRequest POST ep json_headers (JSON_stringify params)) = Ok r ->
  ok r = true ->
  JSON_parse (text r) = Some (JObj props) ->
  well_formed_legacy props ->
  first_present ["transaction"; "swapTransaction"; "tx"] props = Some v ->
  prepared v sign bytes ->
  new_Connection relay "confirmed" = Ok c ->
  sendRawTransaction c bytes (mkSendOptions true 0) = Ok id ->
  ToString id = Some shown ->
  let run :=
    (transactionBase64 <- fetchSwapTransaction Broadcast ep params pk ;;
     executeSwapWithOSlot Broadcast transactionBase64 conn sign relay) s in
  snd run = Ok id
  /\ requests (fst run) =
       (requests s ++
        [mkRequest POST ep json_headers (JSON_stringify params)])%list
  /\ broadcasts (fst run) =
       (broadcasts s ++ [(c, bytes, mkSendOptions true 0)])%list.
Proof.
  intros Ha Hq Hf Hk Hj W Hv (buffer & vt & signed & H1 & H2 & H3 & H4)
    Hc Hs Hp run.
  subst run. destruct s as [t k q b].
  unfold fetchSwapTransaction. rewrite Ha, Hq.
  unfold legacy_branch, legacy_request. step. rewrite Hf, Hk. step.
  rewrite Hj. rewrite (legacy_result_first_present props v _ W Hv).
  unfold executeSwapWithOSlot, executeSwapWithOSlot_broadcast, broadcast_try,
    rethrow_timed.
  step. rewrite H1, H2, H3, H4. step. rewrite Hc. step. rewrite Hs. step.
  rewrite Hp. step. repeat split; reflexivity.
Qed.

End FetchThenSubmit.

(** The end-to-end example: the provider answers [{tx: 'AQID'}], the stub
    signer appends its byte, the stub broadcast answers its identifier. *)
Lemma fetch_then_broadcast_witness :
  let P := answering 200 "OK" body_tx (Some (JObj [("tx", JStr "AQID")])) in
  let run :=
    bind
      (fetchSwapTransaction Broadcast "https://swap.example/api"
         (demo_params (JNum 25)) demo_payer)
      (fun transactionBase64 =>
         executeSwapWithOSlot Broadcast transactionBase64 demo_rpc
           stub_signer demo_relay)
      idle in
  snd run = Ok demo_signature
  /\ requests (fst run) =
       [mkRequest POST "https://swap.example/api" json_headers
          (stringify (demo_params (JNum 25)))]
  /\ broadcasts (fst run) =
       [(demo_relay, base64_decode "AQID/w==", mkSendOptions true 0)].
Proof.
  intros P.
  apply (fetch_then_broadcast (P := P) "https://swap.example/api"
           (demo_params (JNum 25)) demo_payer demo_rpc stub_signer demo_relay
           idle (mkResponse 200 "OK" body_tx) [("tx", JStr "AQID")]
           (JStr "AQID") (base64_decode "AQID/w==") demo_relay demo_signature
           "5VERv8NMvzbJMEkV8xnrLkEaWRtSz9CosKDYjCJjBRnbJLgp8uirBgmQpjKhoR4tjF3ZpRzrFmBV6UjKdiSZkQUW").
  - vm_compute. reflexivity.
  - vm_compute. reflexivity.
  - reflexivity.
  - reflexivity.
  - vm_compute. reflexivity.
  - repeat split; cbv; try exact I. discriminate.
  - reflexivity.
  - exists (base64_decode "AQID"), (base64_decode "AQID").
    eexists. repeat split; vm_compute; reflexivity.
  - reflexivity.
  - reflexivity.
  - reflexivity.
Defined.

(** ** The query string: worked examples *)

(** A swap without an amount, on the aggregator. *)
Lemma missing_amount_sends_nothing_witness :
  let P := answering 200 "OK" body_aggregator (Some parsed_aggregator) in
  let run :=
    fetchSwapTransaction JsonRpc "http://localhost:4000/swap"
      params_without_amount "payer" in
  snd (run idle) = Throw TypeError /\ issued run idle = [].
Proof.
  intros P.
  apply (missing_amount_sends_nothing (P := P) JsonRpc
           "http://localhost:4000/swap" params_without_amount "payer" idle).
  - reflexivity.
  - left. vm_compute. reflexivity.
Defined.

(** A swap without an input mint, on the aggregator: [tokenIn=undefined]
    goes out. *)
Lemma missing_mint_sent_as_undefined_witness :
  let P := answering 200 "OK" body_aggregator (Some parsed_aggregator) in
  issued
    (fetchSwapTransaction JsonRpc "http://localhost:4000/swap"
       params_without_mint "payer") idle = [request_without_mint].
Proof.
  intros P.
  refine (eq_trans
            (proj1
               (missing_mint_sent_as_undefined (P := P) JsonRpc
                  "http://localhost:4000/swap" params_without_mint "payer"
                  idle "EPjFWdd5AufqSSqeM2qN1xzybapC8G4wEGGkZwyTDt1v" "5"
                  "25" _ _ _ _ _ _) _) _);
    vm_compute; reflexivity.
Defined.

(** A slippage of -5 basis points on the aggregator and one of 20000 on
    the quote provider: [slippage=-5] and [slippageBps=20000] go out. *)
Lemma slippage_sent_unchecked_witness :
  let P := answering 200 "OK" body_aggregator (Some parsed_aggregator) in
  issued (P := P)
    (fetchSwapTransaction JsonRpc "http://localhost:4000/swap"
       (demo_params (JNum (-5))) "payer") idle = [request_negative_slippage]
  /\ exists rest,
       issued (P := quote_provider)
         (fetchSwapTransaction JsonRpc "https://quote-api.jup.ag/v6/quote"
            (demo_params (JNum 20000)) "payer") idle =
         mkRequest GET
           "https://quote-api.jup.ag/v6/quote?inputMint=So11111111111111111111111111111111111111112&outputMint=EPjFWdd5AufqSSqeM2qN1xzybapC8G4wEGGkZwyTDt1v&amount=1000000000&slippageBps=20000"
           [] None :: rest
       /\ forall q, In q rest -> method q = POST.
Proof.
  intros P. split.
  - refine (eq_trans
              (proj1
                 (slippage_sent_unchecked (P := P) JsonRpc
                    "http://localhost:4000/swap" (demo_params (JNum (-5)))
                    "payer" idle (-5)
                    "So11111111111111111111111111111111111111112"
                    "EPjFWdd5AufqSSqeM2qN1xzybapC8G4wEGGkZwyTDt1v"
                    "1000000000" _ _ _ _ _ _) _) _);
      try discriminate; vm_compute; reflexivity.
  - destruct (proj2
                (slippage_sent_unchecked (P := quote_provider) JsonRpc
                   "https://quote-api.jup.ag/v6/quote"
                   (demo_params (JNum 20000)) "payer" idle 20000
                   "So11111111111111111111111111111111111111112"
                   "EPjFWdd5AufqSSqeM2qN1xzybapC8G4wEGGkZwyTDt1v"
                   "1000000000" eq_refl ltac:(discriminate) eq_refl eq_refl
                   eq_refl ltac:(vm_compute; reflexivity))
                ltac:(vm_compute; reflexivity)
                ltac:(vm_compute; reflexivity)) as (rest & E & M).
    exists rest. split; [|exact M].
    refine (eq_trans E _). f_equal.
Defined.


(** ** Only 200 is success for the relay *)

Section RelayStatus.
Context {P : Platform}.

(** X15.  For the relay of the JSON-RPC revision only the status 200 is a
    success: on any other status, another 2xx included, the submission
    throws, whatever the body holds (a [result] too). *)
Theorem relay_other_status_never_succeeds tx conn sign ep s r :
  relay_answers tx sign ep r ->
  status r <> 200 ->
  exists e, snd (executeSwapWithOSlot JsonRpc tx conn sign ep s) = Throw e.
Proof.
  intros Hr Hs. reach_relay Hr.
  apply Z.eqb_neq in Hs. rewrite Hs. cbn [negb].
  unfold relay_failure. step.
  destruct (ToString _); eexists; reflexivity.
Qed.

End RelayStatus.

(** The relay answers 201 with [{result: 'sig9'}]: no identifier comes
    back. *)
Lemma relay_other_status_never_succeeds_witness :
  let P :=
    answering 201 "Created" body_result
      (Some (JObj [("result", JStr "sig9")])) in
  exists e,
    snd (executeSwapWithOSlot JsonRpc demo_transaction demo_rpc stub_signer
           demo_relay idle) = Throw e.
Proof.
  intros P.
  apply (relay_other_status_never_succeeds (P := P) demo_transaction demo_rpc
           stub_signer demo_relay idle (mkResponse 201 "Created" body_result)).
  - exists (base64_decode "AQID"), (base64_decode "AQID").
    eexists. eexists. eexists.
    repeat split; vm_compute; reflexivity.
  - discriminate.
Defined.

(** ** Markers *)

Lemma prefix_decompose needle hay :
  prefix needle hay = true <-> exists rest, hay = needle ++ rest.
Proof.
  revert hay. induction needle as [|x needle IH]; intros hay.
  - split; [intros _; exists hay; reflexivity | intros _; now destruct hay].
  - destruct hay as [|y hay]; simpl.
    + split; [discriminate | intros (rest & H); discriminate H].
    + destruct (ascii_dec x y) as [->|N].
      * rewrite IH. split; intros (rest & H); exists rest;
          [now rewrite H | now injection H].
      * split; [discriminate|]. intros (rest & H). injection H as E _.
        congruence.
Qed.

(** [includes] is containment: something, the needle, something. *)
Lemma includes_decompose needle hay :
  includes needle hay = true <->
  exists before after, hay = before ++ needle ++ after.
Proof.
  induction hay as [|y hay IH].
  - cbn [includes]. rewrite orb_false_r, prefix_decompose. split.
    + intros (rest & H). exists EmptyString, rest. exact H.
    + intros (before & after & H). destruct before; [|discriminate H].
      exists after. exact H.
  - cbn [includes]. rewrite orb_true_iff, prefix_decompose, IH. split.
    + intros [(rest & H)|(before & after & H)].
      * exists EmptyString, rest. exact H.
      * exists (String y before), after. simpl. now rewrite H.
    + intros (before & after & H). destruct before as [|x before].
      * left. exists after. exact H.
      * right. injection H as _ H. exists before, after. exact H.
Qed.

(** X16.  The aggregator branch is chosen exactly when the endpoint holds
    [route/solana/swap] or the host marker of the revision somewhere, at
    any place (in the host, in the path or in the query string); the
    twofold markers of the quote branch likewise. *)
Theorem markers_match_anywhere rev ep :
  (is_aggregator rev ep = true <->
   exists before after,
     ep = before ++ "route/solana/swap" ++ after
     \/ ep = before ++ aggregatorHost rev ++ after)
  /\ (is_quote ep = true <->
      exists before after,
        ep = before ++ "quote-api.jup.ag" ++ after
        \/ ep = before ++ "/quote" ++ after).
Proof.
  unfold is_aggregator, is_quote.
  rewrite !orb_true_iff, !includes_decompose. split; split.
  - intros [(b & a & H)|(b & a & H)]; exists b, a; [left|right]; exact H.
  - intros (b & a & [H|H]); [left|right]; exists b, a; exact H.
  - intros [(b & a & H)|(b & a & H)]; exists b, a; [left|right]; exact H.
  - intros (b & a & [H|H]); [left|right]; exists b, a; exact H.
Qed.
